(** * Fitness planner: the metrics calculator and the method normalizer

    A shallow embedding of [normalizeMethodKey] and [calculateFitnessMetrics]
    (services/api.ts) together with the data types of types.ts.

    - A JavaScript number is a binary64 value: Rocq's primitive [float], whose
      [+], [-], [*], [/] and comparisons are the IEEE-754 operations that the
      engine runs, so NaN, the infinities, signed zeros and rounding are the
      ones of the program.
    - A JavaScript string is its sequence of UTF-16 code units.
    - [console.warn] is modelled by returning the emitted messages. *)

From Stdlib Require Import ZArith NArith List Bool Lia String Ascii.
From Stdlib Require Import Floats.
From Stdlib Require Uint63.
Import ListNotations.

Set Warnings "-inexact-float".

(* ================================================================== *)
(** * JavaScript strings *)
(* ================================================================== *)

(** UTF-16 code units. *)
Definition jsstring := list N.

(** A string literal of the source (all of them are ASCII). *)
Definition lit (s : string) : jsstring :=
  map N_of_ascii (list_ascii_of_string s).

(** The double quote, U+0022, that the template literal of the second
    warning puts around the received key. *)
Definition dquote : jsstring := [34%N].

Fixpoint str_eqb (a b : jsstring) : bool :=
  match a, b with
  | [], [] => true
  | x :: a', y :: b' => N.eqb x y && str_eqb a' b'
  | _, _ => false
  end.

(** [Array.prototype.includes] on an array of strings. *)
Definition includes (xs : list jsstring) (key : jsstring) : bool :=
  existsb (str_eqb key) xs.

(** WhiteSpace and LineTerminator code points of ECMA-262, the ones
    [String.prototype.trim] strips: TAB, LF, VT, FF, CR, SP, NBSP, the
    Unicode space separators, LS, PS and the byte order mark. *)
Definition isWhiteSpace (c : N) : bool :=
  ((9 <=? c) && (c <=? 13) || (c =? 32) || (c =? 160) || (c =? 5760)
   || (8192 <=? c) && (c <=? 8202) || (c =? 8232) || (c =? 8233)
   || (c =? 8239) || (c =? 8287) || (c =? 12288) || (c =? 65279))%N.

Fixpoint trimStart (s : jsstring) : jsstring :=
  match s with
  | c :: r => if isWhiteSpace c then trimStart r else s
  | [] => []
  end.

Definition trimEnd (s : jsstring) : jsstring := rev (trimStart (rev s)).

(** [String.prototype.trim]. *)
Definition trim (s : jsstring) : jsstring := trimEnd (trimStart s).

(** Lower case of one code unit.  The ASCII capitals, and the two
    characters outside ASCII whose lower case contains an ASCII letter
    (U+0130, U+212A), are mapped as Unicode prescribes.  Every other case
    pair of Unicode takes a non-ASCII character to non-ASCII characters and
    is left as it is here: a comparison with an ASCII string cannot tell. *)
Definition lowerUnit (c : N) : jsstring :=
  if ((65 <=? c) && (c <=? 90))%N then [(c + 32)%N]
  else if (c =? 304)%N then [105%N; 775%N]
  else if (c =? 8490)%N then [107%N]
  else [c].

(** [String.prototype.toLowerCase]. *)
Definition toLowerCase (s : jsstring) : jsstring := flat_map lowerUnit s.

(* ================================================================== *)
(** * The method normalizer *)
(* ================================================================== *)

(** The literal type ['navy' | 'deurenberg']. *)
Inductive MethodKey : Set := navy | deurenberg.

(** The string a [MethodKey] is at run time. *)
Definition keyString (k : MethodKey) : jsstring :=
  match k with
  | navy => lit "navy"
  | deurenberg => lit "deurenberg"
  end.

Definition navyAliases : list jsstring :=
  [lit "navy"; lit "us_navy"; lit "us-navy"; lit "u.s. navy"; lit "usnavy"].

Definition deurenbergAliases : list jsstring :=
  [lit "deurenberg"; lit "deurenberg1991"; lit "d1991"].

Definition warnEmpty : jsstring :=
  lit "normalizeMethodKey received an empty method. Defaulting to 'deurenberg'.".

Definition warnUnknown (method : jsstring) : jsstring :=
  lit "Unknown method key received: " ++ dquote ++ method ++ dquote
  ++ lit ". Defaulting to 'deurenberg'.".

(** A value together with the messages passed to [console.warn], oldest
    first. *)
Definition Logged (A : Type) : Type := (A * list jsstring)%type.

(** [normalizeMethodKey].  The argument is [None] when the caller passes
    [undefined]; [!method] holds for [undefined] and for the empty string. *)
Definition normalizeMethodKey (method : option jsstring) : Logged MethodKey :=
  match method with
  | None | Some [] => (deurenberg, [warnEmpty])
  | Some m =>
      let key := toLowerCase (trim m) in
      if includes navyAliases key then (navy, [])
      else if includes deurenbergAliases key then (deurenberg, [])
      else (deurenberg, [warnUnknown m])
  end.

(* ================================================================== *)
(** * JavaScript numbers *)
(* ================================================================== *)

Local Open Scope float_scope.

(** ToBoolean of a number: [+0], [-0] and NaN are falsy. *)
Definition truthy (x : float) : bool := negb (is_zero x || is_nan x).

(** ToBoolean of an optional numeric property; [undefined] is falsy. *)
Definition truthyOpt (o : option float) : bool :=
  match o with
  | Some x => truthy x
  | None => false
  end.

(** ToNumber of an optional numeric property: the non-null assertion [!]
    of TypeScript is erased, and [undefined] in arithmetic or in a
    comparison is NaN. *)
Definition toNumber (o : option float) : float :=
  match o with
  | Some x => x
  | None => nan
  end.

(** The float of an integer; exact when [|n| <= 2^53]. *)
Definition Z2float (n : Z) : float :=
  match n with
  | Z0 => 0
  | Zpos p => of_uint63 (Uint63.of_Z (Zpos p))
  | Zneg p => - of_uint63 (Uint63.of_Z (Zpos p))
  end.

(** [Math.round]: the integer nearest to [x], the one towards +infinity on
    a tie; NaN, the infinities and integers are returned as they are,
    and a result of zero keeps the sign of [x].  For [x = (-1)^s m 2^e]
    with [e < 0], [floor (x + 1/2)] is computed on integers. *)
Definition Math_round (x : float) : float :=
  match Prim2SF x with
  | S754_finite s m e =>
      if (0 <=? e)%Z then x
      else
        let sm := if s then Zneg m else Zpos m in
        let n := ((2 * sm + 2 ^ (- e)) / 2 ^ (1 - e))%Z in
        if (n =? 0)%Z then (if s then neg_zero else zero) else Z2float n
  | _ => x
  end.

(** The integer [n] for which [n / 10] is nearest to [m 2^e], the larger
    one on a tie (step 8 of Number.prototype.toFixed, one digit). *)
Definition tenths (m : positive) (e : Z) : Z :=
  if (0 <=? e)%Z then 10 * Zpos m * 2 ^ e
  else (20 * Zpos m + 2 ^ (- e)) / 2 ^ (1 - e).

(** [parseFloat(x.toFixed(1))].  [toFixed] prints NaN and the infinities
    by name and [parseFloat] reads them back; [(-0).toFixed(1)] is "0.0".
    Below [2^49] the digits are those of [tenths], which fits 53 bits, so
    the correctly rounded quotient by ten is the double nearest to the
    decimal.  From [2^49] on doubles are at least 1/8 apart while the
    decimal is within 1/20 of [x], and from [10^21] on [toFixed] prints
    the shortest round-trip form: in both cases [x] is read back. *)
Definition parseFloat_toFixed1 (x : float) : float :=
  match Prim2SF x with
  | S754_zero _ => 0
  | S754_finite s m e =>
      if 562949953421312 <=? abs x then x
      else
        let r := Z2float (tenths m e) / 10 in
        if s then - r else r
  | _ => x
  end.

(** [Math.max] and [Math.min] of two arguments: NaN if either is NaN, and
    [+0] counts as larger than [-0]. *)
Definition Math_max (a b : float) : float :=
  if is_nan a || is_nan b then nan
  else if a <? b then b
  else if b <? a then a
  else if is_zero a && get_sign a then b else a.

Definition Math_min (a b : float) : float :=
  if is_nan a || is_nan b then nan
  else if a <? b then a
  else if b <? a then b
  else if is_zero a && get_sign a then a else b.

(** [Math.log10] is implementation-approximated in ECMA-262: the standard
    fixes the results below and leaves the value at any other positive
    finite argument to the engine, here the parameter [log10_impl]. *)
Definition Math_log10 (log10_impl : float -> float) (x : float) : float :=
  if is_nan x then nan
  else if x <? 0 then nan
  else if is_zero x then neg_infinity
  else if x =? infinity then infinity
  else if x =? 1 then 0
  else log10_impl x.

(** One admissible [log10_impl], for running the calculator on concrete
    profiles: with [x = f 2^k] and [f] in [[1/2, 1)],
    [ln f = 2 atanh ((f - 1) / (f + 1))] by its power series, and
    [log10 x = (ln f + k ln 2) / ln 10]. *)
Definition log10_series (x : float) : float :=
  let (f, k) := Z.frexp x in
  let t := (f - 1) / (f + 1) in
  let t2 := t * t in
  let atanh_t :=
    t * (1 + t2 * (1/3 + t2 * (1/5 + t2 * (1/7 + t2 * (1/9 + t2 * (1/11
      + t2 * (1/13 + t2 * (1/15 + t2 * (1/17 + t2 * (1/19 + t2 * (1/21
      + t2 * (1/23 + t2 * (1/25 + t2 * (1/27 + t2 * (1/29
      + t2 / 31))))))))))))))) in
  (2 * atanh_t + Z2float k * 0.6931471805599453) / 2.302585092994046.

(* ================================================================== *)
(** * The data model (types.ts) *)
(* ================================================================== *)

Inductive Gender : Set := Male | Female.
Inductive Goal : Set := Maintenance | Bulking | Cutting.
Inductive Focus : Set := Strength | Hypertrophy.

Record UserData : Set := mkUserData {
  age : float;
  gender : Gender;
  height : float;
  weight : float;
  trainingDays : float;
  goal : Goal;
  focus : Focus;
  neck : option float;
  waist : option float;
  hip : option float
}.

Record TargetCalories : Set := mkTargetCalories {
  maintenance : float;
  bulking : float;
  cutting : float
}.

Record FitnessResults : Set := mkFitnessResults {
  bmi : float;
  bodyFatPercentage : float;
  bodyFatMethod : MethodKey;
  bmr : float;
  tdee : float;
  targetCalories : TargetCalories
}.

(** [data.gender === g]. *)
Definition gender_is (g : Gender) (data : UserData) : bool :=
  match g, gender data with
  | Male, Male | Female, Female => true
  | _, _ => false
  end.

(* ================================================================== *)
(** * The metrics calculator *)
(* ================================================================== *)

(** Every local of [calculateFitnessMetrics] is a function of [data],
    named [calc_] and the local's name, in the order of the source. *)
Section Calculator.

Variable log10_impl : float -> float.

Definition calc_heightM (data : UserData) : float := height data / 100.

Definition calc_bmi (data : UserData) : float :=
  parseFloat_toFixed1
    (weight data / (calc_heightM data * calc_heightM data)).

(** [useNavy], as the condition of an [if]. *)
Definition calc_useNavy (data : UserData) : bool :=
  truthyOpt (neck data) && truthyOpt (waist data)
  && (gender_is Male data
      || (gender_is Female data && truthyOpt (hip data))).

Definition calc_navyIsValid (data : UserData) : bool :=
  if calc_useNavy data then
    if gender_is Male data then
      if toNumber (neck data) <? toNumber (waist data) then true else false
    else
      if toNumber (neck data) <? toNumber (waist data) + toNumber (hip data)
      then true else false
  else false.

Definition calc_bodyFatMethod (data : UserData) : MethodKey :=
  if calc_useNavy data && calc_navyIsValid data then navy else deurenberg.

(** [bodyFatPercentage] as the formulas leave it, before line 83. *)
Definition calc_bodyFat (data : UserData) : float :=
  if calc_useNavy data && calc_navyIsValid data then
    if gender_is Male data then
      495 / (1.0324
             - 0.19077 * Math_log10 log10_impl
                           (toNumber (waist data) - toNumber (neck data))
             + 0.15456 * Math_log10 log10_impl (height data)) - 450
    else
      495 / (1.29579
             - 0.35004 * Math_log10 log10_impl
                           (toNumber (waist data) + toNumber (hip data)
                            - toNumber (neck data))
             + 0.22100 * Math_log10 log10_impl (height data)) - 450
  else
    let isMale := if gender_is Male data then 1 else 0 in
    (1.20 * calc_bmi data) + (0.23 * age data) - (10.8 * isMale) - 5.4.

(** Line 83. *)
Definition calc_bodyFatPercentage (data : UserData) : float :=
  parseFloat_toFixed1 (Math_max 5 (Math_min 50 (calc_bodyFat data))).

Definition calc_bmr (data : UserData) : float :=
  Math_round
    (if gender_is Male data then
       (10 * weight data) + (6.25 * height data) - (5 * age data) + 5
     else
       (10 * weight data) + (6.25 * height data) - (5 * age data) - 161).

Definition calc_pal (data : UserData) : float :=
  if trainingDays data <=? 1 then 1.40
  else if trainingDays data <=? 3 then 1.55
  else if trainingDays data <=? 5 then 1.70
  else 1.85.

Definition calc_tdee (data : UserData) : float :=
  Math_round (calc_bmr data * calc_pal data).

Definition calc_maintenance (data : UserData) : float := calc_tdee data.

Definition calc_cutting (data : UserData) : float :=
  calc_tdee data - Math_round (calc_tdee data * 0.15).

Definition calc_bulking (data : UserData) : float :=
  calc_tdee data + Math_round (calc_tdee data * 0.10).

Definition calculateFitnessMetrics (data : UserData) : FitnessResults :=
  {| bmi := calc_bmi data;
     bodyFatPercentage := calc_bodyFatPercentage data;
     bodyFatMethod := calc_bodyFatMethod data;
     bmr := calc_bmr data;
     tdee := calc_tdee data;
     targetCalories :=
       {| maintenance := calc_maintenance data;
          bulking := calc_bulking data;
          cutting := calc_cutting data |} |}.

End Calculator.

(* ================================================================== *)
(** * Predicates of the specification *)
(* ================================================================== *)

(** The closed interval [[5.0, 50.0]]; NaN is outside of it. *)
Definition inRange (x : float) : bool := (5 <=? x) && (x <=? 50).

(** A measurement that is present, whatever its value. *)
Definition present (o : option float) : bool :=
  match o with
  | Some _ => true
  | None => false
  end.

(** Navy eligibility in the words of the specification: neck and waist
    present, and sex male, or sex female and hip present. *)
Definition spec_navyEligible (data : UserData) : bool :=
  present (neck data) && present (waist data)
  && (gender_is Male data || (gender_is Female data && present (hip data))).

(** Navy validity in the words of the specification: waist > neck for a
    male, waist + hip > neck for a female. *)
Definition spec_navyValid (data : UserData) : bool :=
  match gender data with
  | Male => toNumber (neck data) <? toNumber (waist data)
  | Female =>
      toNumber (neck data) <? toNumber (waist data) + toNumber (hip data)
  end.

(** A measurement that is present and is neither zero nor NaN. *)
Definition measured (o : option float) : Prop :=
  exists x, o = Some x /\ is_zero x = false /\ is_nan x = false.

(** The condition under which the Navy method applies: neck and waist
    measured, sex male, or sex female and hip measured, and the
    measurements consistent. *)
Definition navyApplies (data : UserData) : Prop :=
  measured (neck data) /\ measured (waist data)
  /\ (gender data = Male \/ (gender data = Female /\ measured (hip data)))
  /\ spec_navyValid data = true.

(** A measurement supplied with the value 0 (of either sign). *)
Definition suppliedZero (o : option float) : Prop :=
  exists x, o = Some x /\ is_zero x = true.

(** The three body-fat formulas in the words of the specification. *)
Definition spec_navyMale (log10_impl : float -> float) (data : UserData)
  : float :=
  495 / (1.0324
         - 0.19077 * Math_log10 log10_impl
                       (toNumber (waist data) - toNumber (neck data))
         + 0.15456 * Math_log10 log10_impl (height data)) - 450.

Definition spec_navyFemale (log10_impl : float -> float) (data : UserData)
  : float :=
  495 / (1.29579
         - 0.35004 * Math_log10 log10_impl
                       (toNumber (waist data) + toNumber (hip data)
                        - toNumber (neck data))
         + 0.22100 * Math_log10 log10_impl (height data)) - 450.

Definition spec_deurenberg (BMI : float) (data : UserData) : float :=
  1.20 * BMI + 0.23 * age data
  - 10.8 * (match gender data with Male => 1 | Female => 0 end) - 5.4.

(** Clamp to [[5, 50]], then round to one decimal. *)
Definition spec_clampRound (x : float) : float :=
  parseFloat_toFixed1 (Math_max 5 (Math_min 50 x)).

(** The Mifflin-St Jeor equation. *)
Definition spec_mifflinStJeor (data : UserData) : float :=
  match gender data with
  | Male => 10 * weight data + 6.25 * height data - 5 * age data + 5
  | Female => 10 * weight data + 6.25 * height data - 5 * age data - 161
  end.

(* ================================================================== *)
(** * Sample profiles *)
(* ================================================================== *)

(** The first example of the specification: male, 30 years, 175 cm,
    75 kg, neck 38, waist 85. *)
Definition profile_navyMale : UserData :=
  mkUserData 30 Male 175 75 3 Maintenance Strength (Some 38) (Some 85) None.

(** The same person with another goal and focus. *)
Definition profile_navyMale_bulking : UserData :=
  mkUserData 30 Male 175 75 3 Bulking Hypertrophy (Some 38) (Some 85) None.

(** The same person with a neck measurement of 0, which the form accepts
    (it refuses only negative circumferences). *)
Definition profile_neckZero : UserData :=
  mkUserData 30 Male 175 75 3 Maintenance Strength (Some 0) (Some 85) None.

(** Weight 0 and height 0: the BMI is 0/0. *)
Definition profile_zeroHeight : UserData :=
  mkUserData 30 Male 0 0 3 Maintenance Strength None None None.

(** A negative height with valid Navy measurements. *)
Definition profile_negativeHeight : UserData :=
  mkUserData 30 Male (-175) 75 3 Maintenance Strength (Some 38) (Some 85) None.

(** The first sample person training [days] days a week. *)
Definition profile_days (days : float) : UserData :=
  mkUserData 30 Male 175 75 days Maintenance Strength (Some 38) (Some 85)
    None.

(** A profile whose TDEE is 2500: BMR 1613, PAL 1.55. *)
Definition profile_tdee2500 : UserData :=
  mkUserData 40 Male 176 70.8 3 Maintenance Strength None None None.

(* ================================================================== *)
(** * Reading numbers from strings *)
(* ================================================================== *)

(** The double nearest to [n / d] for positive integers [n] and [d], ties
    to the even mantissa.  The exponent [e] is the one that leaves 53
    bits of quotient, or -1074 in the subnormal range; [Z.ldexp]
    overflows to infinity. *)
Definition nearestDouble (n d : Z) : float :=
  let l := (Z.log2 n - Z.log2 d)%Z in
  let above :=
    if (0 <=? l)%Z then (d * 2 ^ l <=? n)%Z else (d <=? n * 2 ^ (- l))%Z in
  let e := Z.max ((if above then l else l - 1) - 52) (-1074) in
  let num := if (0 <=? e)%Z then n else (n * 2 ^ (- e))%Z in
  let den := if (0 <=? e)%Z then (d * 2 ^ e)%Z else d in
  let q := (num / den)%Z in
  let r := (num mod den)%Z in
  let up := ((den <? 2 * r) || ((den =? 2 * r) && Z.odd q))%Z in
  Z.ldexp (Z2float (if up then q + 1 else q)%Z) e.

(** The double of the decimal [m 10^k], [m >= 0], with the given sign. *)
Definition decimalToDouble (negative : bool) (m k : Z) : float :=
  let x :=
    if (m =? 0)%Z then 0
    else if (0 <=? k)%Z then nearestDouble (m * 10 ^ k) 1
    else nearestDouble m (10 ^ (- k)) in
  if negative then - x else x.

Definition isDigit (c : N) : bool := ((48 <=? c) && (c <=? 57))%N.

(** The value of a hexadecimal digit, if [c] is one. *)
Definition hexDigit (c : N) : option Z :=
  if isDigit c then Some (Z.of_N c - 48)%Z
  else if ((97 <=? c) && (c <=? 102))%N then Some (Z.of_N c - 87)%Z
  else if ((65 <=? c) && (c <=? 70))%N then Some (Z.of_N c - 55)%Z
  else None.

(** The longest run of decimal digits at the head of [s], and the rest. *)
Fixpoint takeDigits (s : jsstring) : list N * jsstring :=
  match s with
  | c :: r =>
      if isDigit c then let (ds, rest) := takeDigits r in (c :: ds, rest)
      else ([], s)
  | [] => ([], [])
  end.

Fixpoint takeHexDigits (s : jsstring) : list Z :=
  match s with
  | c :: r =>
      match hexDigit c with
      | Some v => v :: takeHexDigits r
      | None => []
      end
  | [] => []
  end.

Definition digitsValue (ds : list N) : Z :=
  fold_left (fun acc c => (10 * acc + (Z.of_N c - 48))%Z) ds 0%Z.

(** A leading [+] or [-]: whether it is [-], and the rest. *)
Definition takeSign (s : jsstring) : bool * jsstring :=
  match s with
  | 45%N :: r => (true, r)
  | 43%N :: r => (false, r)
  | _ => (false, s)
  end.

Fixpoint startsWith (prefix s : jsstring) : bool :=
  match prefix, s with
  | [], _ => true
  | p :: prefix', c :: s' => N.eqb p c && startsWith prefix' s'
  | _ :: _, [] => false
  end.

(** The exponent part at the head of [s], 0 when there is none or when
    it has no digit (the longest numeric prefix then ends before it). *)
Definition takeExponent (s : jsstring) : Z :=
  match s with
  | c :: r =>
      if ((c =? 101) || (c =? 69))%N then
        let (eneg, r') := takeSign r in
        let (ds, _) := takeDigits r' in
        match ds with
        | [] => 0%Z
        | _ => if eneg then (- digitsValue ds)%Z else digitsValue ds
        end
      else 0%Z
  | [] => 0%Z
  end.

(** [parseFloat]: leading white space is skipped, then the longest prefix
    that is a StrDecimalLiteral is read ([Infinity], digits with an
    optional fraction, or a fraction alone, each with optional sign and
    exponent); NaN when there is none. *)
Definition parseFloat_js (input : jsstring) : float :=
  let (negative, s) := takeSign (trimStart input) in
  if startsWith (lit "Infinity") s then
    if negative then neg_infinity else infinity
  else
    let (ip, r1) := takeDigits s in
    let (fp, r2) :=
      match r1 with
      | 46%N :: r => takeDigits r
      | _ => ([], r1)
      end in
    match ip ++ fp with
    | [] => nan
    | ds =>
        decimalToDouble negative (digitsValue ds)
          (takeExponent r2 - Z.of_nat (List.length fp))
    end.

(** [parseInt] without a radix: leading white space and a sign are
    skipped, [0x] or [0X] selects radix 16, and the digits up to the first
    character that is not one are read; NaN when there is none. *)
Definition parseInt_js (input : jsstring) : float :=
  let (negative, s) := takeSign (trimStart input) in
  let value :=
    match s with
    | 48%N :: x :: r =>
        if ((x =? 120) || (x =? 88))%N then
          match takeHexDigits r with
          | [] => None
          | hs => Some (fold_left (fun acc v => (16 * acc + v)%Z) hs 0%Z)
          end
        else
          match fst (takeDigits s) with
          | [] => None
          | ds => Some (digitsValue ds)
          end
    | _ =>
        match fst (takeDigits s) with
        | [] => None
        | ds => Some (digitsValue ds)
        end
    end in
  match value with
  | None => nan
  | Some v => decimalToDouble negative v 0
  end.

(* ================================================================== *)
(** * The form (components/FitnessForm.tsx) *)
(* ================================================================== *)

(** [FormState]: the numeric fields are the strings of the inputs. *)
Record FormState : Set := mkFormState {
  form_age : jsstring;
  form_gender : Gender;
  form_height : jsstring;
  form_weight : jsstring;
  form_trainingDays : jsstring;
  form_goal : Goal;
  form_focus : Focus;
  form_neck : jsstring;
  form_waist : jsstring;
  form_hip : jsstring
}.

(** The object [currentErrors] of [handleSubmit], one message per field. *)
Record FormErrors : Set := mkFormErrors {
  err_age : jsstring;
  err_height : jsstring;
  err_weight : jsstring;
  err_neck : jsstring;
  err_waist : jsstring;
  err_hip : jsstring
}.

(** ToBoolean of a string: only the empty string is falsy. *)
Definition nonEmpty (s : jsstring) : bool :=
  match s with
  | [] => false
  | _ :: _ => true
  end.

(** The messages of the form; the accented letters are given by their
    code units (U+00FA, U+00E9, U+00E1). *)
Definition msgNotANumber : jsstring :=
  lit "Debe ser un n" ++ [250%N] ++ lit "mero.".
Definition msgAge : jsstring := lit "Edad entre 16 y 99.".
Definition msgHeight : jsstring := lit "Altura entre 120 y 250 cm.".
Definition msgWeight : jsstring := lit "Peso entre 30 y 300 kg.".
Definition msgNegative : jsstring := lit "No puede ser negativo.".

Definition warnWaistNeck : jsstring :=
  lit "Aviso: La medida de la cintura debe ser mayor que la del cuello para usar el m"
  ++ [233%N] ++ lit "todo Navy. Se usar" ++ [225%N] ++ lit " el m" ++ [233%N]
  ++ lit "todo de respaldo.".

Definition warnWaistHipNeck : jsstring :=
  lit "Aviso: La suma de cintura y cadera debe ser mayor que el cuello para usar el m"
  ++ [233%N] ++ lit "todo Navy. Se usar" ++ [225%N] ++ lit " el m" ++ [233%N]
  ++ lit "todo de respaldo.".

(** [g === Gender.Female]. *)
Definition isFemale (g : Gender) : bool :=
  match g with
  | Female => true
  | Male => false
  end.

Section Form.

(** The built-in [parseFloat] and [parseInt]; [parseFloat_js] and
    [parseInt_js] above are what they stand for. *)
Variable parseFloat : jsstring -> float.
Variable parseInt : jsstring -> float.

(** [validateField]: the error message of a field, empty when the value
    is accepted. *)
Definition validateField (name value : jsstring) : jsstring :=
  if includes [lit "neck"; lit "waist"; lit "hip"] name
     && negb (nonEmpty value)
  then []
  else
    let numValue := parseFloat value in
    if is_nan numValue then msgNotANumber
    else if str_eqb name (lit "age") then
      if (numValue <? 16) || (99 <? numValue) then msgAge else []
    else if str_eqb name (lit "height") then
      if (numValue <? 120) || (250 <? numValue) then msgHeight else []
    else if str_eqb name (lit "weight") then
      if (numValue <? 30) || (300 <? numValue) then msgWeight else []
    else if str_eqb name (lit "neck") || str_eqb name (lit "waist")
            || str_eqb name (lit "hip") then
      if numValue <? 0 then msgNegative else []
    else [].

(** [navyValidationWarning]: the notice under the optional measures,
    [None] for [null]. *)
Definition navyValidationWarning (form : FormState) : option jsstring :=
  let neck := parseFloat (form_neck form) in
  let waist := parseFloat (form_waist form) in
  let hip := parseFloat (form_hip form) in
  if negb (truthy waist) || negb (truthy neck) then None
  else
    match form_gender form with
    | Male =>
        if (0 <? waist) && (0 <? neck) && (waist <=? neck)
        then Some warnWaistNeck else None
    | Female =>
        if negb (truthy hip) then None
        else if (0 <? waist) && (0 <? neck) && (0 <? hip)
                && (waist + hip <=? neck)
        then Some warnWaistHipNeck else None
    end.

Definition currentErrors (form : FormState) : FormErrors :=
  {| err_age := validateField (lit "age") (form_age form);
     err_height := validateField (lit "height") (form_height form);
     err_weight := validateField (lit "weight") (form_weight form);
     err_neck := validateField (lit "neck") (form_neck form);
     err_waist := validateField (lit "waist") (form_waist form);
     err_hip := validateField (lit "hip") (form_hip form) |}.

(** [Object.values(currentErrors).every(e => e === "")]. *)
Definition noErrors (e : FormErrors) : bool :=
  forallb (fun m => negb (nonEmpty m))
    [err_age e; err_height e; err_weight e; err_neck e; err_waist e;
     err_hip e].

(** [canSubmit], and [isFormValid] on the debounced state. *)
Definition canSubmit (form : FormState) : bool :=
  noErrors (currentErrors form) && nonEmpty (form_age form)
  && nonEmpty (form_height form) && nonEmpty (form_weight form).

(** The object passed to [onSubmit]. *)
Definition submittedData (form : FormState) : UserData :=
  {| age := parseInt (form_age form);
     gender := form_gender form;
     height := parseInt (form_height form);
     weight := parseFloat (form_weight form);
     trainingDays := parseInt (form_trainingDays form);
     goal := form_goal form;
     focus := form_focus form;
     neck := if nonEmpty (form_neck form)
             then Some (parseFloat (form_neck form)) else None;
     waist := if nonEmpty (form_waist form)
              then Some (parseFloat (form_waist form)) else None;
     hip := if nonEmpty (form_hip form) && isFemale (form_gender form)
            then Some (parseFloat (form_hip form)) else None |}.

(** [handleSubmit] of the form: [inl data] when [onSubmit data] is
    called, [inr errors] when [setErrors errors] is. *)
Definition form_handleSubmit (form : FormState) : UserData + FormErrors :=
  if canSubmit form then inl (submittedData form)
  else inr (currentErrors form).

End Form.

(* ================================================================== *)
(** * The workout routine request (services/api.ts) *)
(* ================================================================== *)

Set Warnings "-register-all".

(** A value produced by [JSON.parse]; an object is the list of its
    properties, each key once. *)
Inductive json : Type :=
  | JNull
  | JBool (b : bool)
  | JNum (x : float)
  | JStr (s : jsstring)
  | JArr (items : list json)
  | JObj (props : list (jsstring * json)).

(** The value of the property [key] in a list of properties, [None] for
    [undefined]. *)
Fixpoint lookupProp {A : Type} (key : jsstring) (props : list (jsstring * A))
  : option A :=
  match props with
  | (k, v) :: rest => if str_eqb key k then Some v else lookupProp key rest
  | [] => None
  end.

(** ToBoolean of a parsed value. *)
Definition truthyJson (v : json) : bool :=
  match v with
  | JNull => false
  | JBool b => b
  | JNum x => truthy x
  | JStr s => nonEmpty s
  | JArr _ | JObj _ => true
  end.

(** ToBoolean of the property [key] of a value that is not [null]:
    [routineTitle], [weeklySchedule] and [generalNotes] are properties
    of no prototype, so anything but an object has them [undefined]. *)
Definition truthyProp (key : jsstring) (v : json) : bool :=
  match v with
  | JObj props =>
      match lookupProp key props with
      | Some x => truthyJson x
      | None => false
      end
  | _ => false
  end.

(** What the [try] block of [generateWorkoutRoutine] can throw. *)
Inductive Failure : Set :=
  | ApiRejected      (* the awaited request rejects *)
  | NoText           (* TypeError: [response.text] is undefined *)
  | ParseError       (* SyntaxError of [JSON.parse] *)
  | NullData         (* TypeError: a property of [null] *)
  | BadFormat.       (* the Error of line 217 *)

(** A value thrown to a caller: an [Error] with its message, or
    something that is not an [Error]. *)
Inductive Thrown : Set :=
  | ErrorInstance (message : jsstring)
  | NotAnError.

Definition msgBadFormat : jsstring :=
  lit "La respuesta de la API no tiene el formato esperado.".

Definition msgNoRoutine : jsstring :=
  lit "No se pudo generar la rutina. Por favor, int" ++ [233%N]
  ++ lit "ntalo de nuevo m" ++ [225%N] ++ lit "s tarde.".

Definition msgUnexpected : jsstring :=
  lit "Ocurri" ++ [243%N] ++ lit " un error inesperado. Por favor, int"
  ++ [233%N] ++ lit "ntalo de nuevo.".

Section Routine.

(** The built-in [JSON.parse], [None] when it throws. *)
Variable JSON_parse : jsstring -> option json.

(** The [try] block of [generateWorkoutRoutine].  The request itself is
    the service's business: [reply] is what awaiting it gave, [None] for
    a rejection and [Some text] for a response with that [text]
    ([None] when the response has none). *)
Definition routineBody (reply : option (option jsstring)) : json + Failure :=
  match reply with
  | None => inr ApiRejected
  | Some None => inr NoText
  | Some (Some text) =>
      match JSON_parse (trim text) with
      | None => inr ParseError
      | Some JNull => inr NullData
      | Some parsedData =>
          if truthyProp (lit "routineTitle") parsedData
             && truthyProp (lit "weeklySchedule") parsedData
             && truthyProp (lit "generalNotes") parsedData
          then inl parsedData
          else inr BadFormat
      end
  end.

(** [generateWorkoutRoutine]: the routine or the thrown value, with the
    errors passed to [console.error]. *)
Definition generateWorkoutRoutine (reply : option (option jsstring))
  : (json + Thrown) * list Failure :=
  match routineBody reply with
  | inl routine => (inl routine, [])
  | inr error => (inr (ErrorInstance msgNoRoutine), [error])
  end.

End Routine.

(* ================================================================== *)
(** * The application state (App.tsx) *)
(* ================================================================== *)

Record AppState : Type := mkAppState {
  st_userData : option UserData;
  st_results : option FitnessResults;
  st_routine : option json;
  st_isLoading : bool;
  st_error : option jsstring
}.

Definition initialState : AppState :=
  mkAppState None None None false None.

Definition setUserData (v : option UserData) (st : AppState) : AppState :=
  mkAppState v (st_results st) (st_routine st) (st_isLoading st)
    (st_error st).
Definition setResults (v : option FitnessResults) (st : AppState)
  : AppState :=
  mkAppState (st_userData st) v (st_routine st) (st_isLoading st)
    (st_error st).
Definition setRoutine (v : option json) (st : AppState) : AppState :=
  mkAppState (st_userData st) (st_results st) v (st_isLoading st)
    (st_error st).
Definition setIsLoading (v : bool) (st : AppState) : AppState :=
  mkAppState (st_userData st) (st_results st) (st_routine st) v
    (st_error st).
Definition setError (v : option jsstring) (st : AppState) : AppState :=
  mkAppState (st_userData st) (st_results st) (st_routine st)
    (st_isLoading st) v.

(** What [renderContent] shows. *)
Inductive View : Type :=
  | LoadingView
  | ErrorView (message : jsstring)
  | ResultsView (results : FitnessResults) (routine : json)
      (userData : UserData)
  | FormView.

Definition renderContent (st : AppState) : View :=
  if st_isLoading st then LoadingView
  else
    match st_error st with
    | Some (c :: message) => ErrorView (c :: message)
    | _ =>
        match st_results st, st_routine st, st_userData st with
        | Some results, Some routine, Some userData =>
            if truthyJson routine then ResultsView results routine userData
            else FormView
        | _, _, _ => FormView
        end
    end.

Definition handleReset (st : AppState) : AppState :=
  setIsLoading false
    (setError None (setRoutine None (setResults None (setUserData None st)))).

Section App.

Variable log10_impl : float -> float.
Variable JSON_parse : jsstring -> option json.

(** The state while [generateWorkoutRoutine] is awaited. *)
Definition handleSubmit_pending (data : UserData) (st : AppState)
  : AppState :=
  let st := setIsLoading true st in
  let st := setError None st in
  let st := setResults None st in
  let st := setRoutine None st in
  let st := setUserData (Some data) st in
  let fitnessMetrics := calculateFitnessMetrics log10_impl data in
  setResults (Some fitnessMetrics) st.

(** The state when [handleSubmit] has finished, [reply] being what the
    service gave. *)
Definition handleSubmit (data : UserData) (reply : option (option jsstring))
  (st : AppState) : AppState :=
  let st := handleSubmit_pending data st in
  let st :=
    match fst (generateWorkoutRoutine JSON_parse reply) with
    | inl workoutRoutine => setRoutine (Some workoutRoutine) st
    | inr err =>
        let st :=
          match err with
          | ErrorInstance message => setError (Some message) st
          | NotAnError => setError (Some msgUnexpected) st
          end in
        setRoutine None (setResults None st)
    end in
  setIsLoading false st.

End App.

(* ================================================================== *)
(** * The results display (components/ResultsDisplay.tsx) *)
(* ================================================================== *)

(** An entry of [window.METHOD_SOURCES]. *)
Record MethodInfo : Set := mkMethodInfo {
  info_name : jsstring;
  info_note : jsstring
}.

(** The literal that ends the chain of [||], with U+00F3. *)
Definition defaultMethodInfo : MethodInfo :=
  {| info_name := lit "Deurenberg (1991)";
     info_note := lit "Usa IMC, edad y sexo como estimaci" ++ [243%N]
                  ++ lit "n poblacional." |}.

(** [table?.[key]]: [undefined] when the table is. *)
Definition optionalLookup {A : Type} (table : option (list (jsstring * A)))
  (key : jsstring) : option A :=
  match table with
  | Some props => lookupProp key props
  | None => None
  end.

(** [bodyFatMethodInfo], with the warnings of the call of
    [normalizeMethodKey].  [METHOD_SOURCES] is the table that index.html
    puts on [window], [None] when it is not there. *)
Definition bodyFatMethodInfo
  (METHOD_SOURCES : option (list (jsstring * MethodInfo)))
  (results : FitnessResults) : Logged MethodInfo :=
  let (methodKey, warnings) :=
    normalizeMethodKey (Some (keyString (bodyFatMethod results))) in
  let info :=
    match optionalLookup METHOD_SOURCES (keyString methodKey) with
    | Some i => i
    | None =>
        match optionalLookup METHOD_SOURCES (lit "deurenberg") with
        | Some i => i
        | None => defaultMethodInfo
        end
    end in
  (info, warnings).

Definition bodyFatTitle (info : MethodInfo) : jsstring :=
  lit "% Grasa (" ++ info_name info ++ lit ")".

(** The values of the enum [Goal]. *)
Definition goalString (g : Goal) : jsstring :=
  match g with
  | Maintenance => lit "maintenance"
  | Bulking => lit "bulking"
  | Cutting => lit "cutting"
  end.

(** The properties of the object [targetCalories], as line 120 of
    services/api.ts writes them. *)
Definition targetCaloriesProps (t : TargetCalories)
  : list (jsstring * float) :=
  [(lit "maintenance", maintenance t); (lit "bulking", bulking t);
   (lit "cutting", cutting t)].

(** [selectedGoalCalories = results.targetCalories[userData.goal]]. *)
Definition selectedGoalCalories (results : FitnessResults)
  (userData : UserData) : option float :=
  lookupProp (goalString (goal userData))
    (targetCaloriesProps (targetCalories results)).

(* ================================================================== *)
(** * The order of binary64 values *)
(* ================================================================== *)

(** A key whose lexicographic order is the order [SFcompare] computes:
    the class (negative infinity, negative, zero, positive, positive
    infinity), then exponent and mantissa, negated below zero. *)
Definition SFkey (x : spec_float) : option (Z * Z * Z) :=
  match x with
  | S754_nan => None
  | S754_infinity true => Some (-2, 0, 0)%Z
  | S754_finite true m e => Some (-1, - e, - Z.pos m)%Z
  | S754_zero _ => Some (0, 0, 0)%Z
  | S754_finite false m e => Some (1, e, Z.pos m)%Z
  | S754_infinity false => Some (2, 0, 0)%Z
  end.

Definition key_le (a b : Z * Z * Z) : Prop :=
  let '(a1, a2, a3) := a in
  let '(b1, b2, b3) := b in
  (a1 < b1 \/ (a1 = b1 /\ (a2 < b2 \/ (a2 = b2 /\ a3 <= b3))))%Z.

Definition key_lt (a b : Z * Z * Z) : Prop :=
  let '(a1, a2, a3) := a in
  let '(b1, b2, b3) := b in
  (a1 < b1 \/ (a1 = b1 /\ (a2 < b2 \/ (a2 = b2 /\ a3 < b3))))%Z.

(* ================================================================== *)
(** * Auxiliary predicates *)
(* ================================================================== *)



(** The integers [lo, lo + 1, ...], [len] of them. *)
Fixpoint zrange (lo : Z) (len : nat) : list Z :=
  match len with
  | O => []
  | S k => lo :: zrange (lo + 1) k
  end.

(** The activity multiplier in hundredths, by the tiers of
    [calc_pal]. *)
Definition palPercent (data : UserData) : Z :=
  if trainingDays data <=? 1 then 140
  else if trainingDays data <=? 3 then 155
  else if trainingDays data <=? 5 then 170
  else 185.

(** The Mifflin-St Jeor value in exact arithmetic, rounded half up, for
    a weight of [k] tenths of a kilogram, a height of [h] centimetres and
    an age of [a] years: [floor (k/10 * 10 + 6.25 h - 5 a + c + 1/2)] with
    [c = 5] or [c = -161]. *)
Definition exactBmr (g : Gender) (k h a : Z) : Z :=
  match g with
  | Male => (4 * k + 25 * h - 20 * a + 22) / 4
  | Female => (4 * k + 25 * h - 20 * a - 642) / 4
  end.

(** [round (n p / 100)], [round (0.15 n)] and [round (0.10 n)] in exact
    arithmetic, halves rounded up. *)
Definition exactTdee (percent n : Z) : Z := (percent * n + 50) / 100.
Definition exactCutting (n : Z) : Z := n - (3 * n + 10) / 20.
Definition exactBulking (n : Z) : Z := n + (n + 5) / 10.

(** A profile as the form delivers it when the inputs are plain
    numerals within the bounds of [validateField]: the age and the height
    whole numbers, the weight a number of tenths. *)
Definition formValid (data : UserData) (k h a : Z) : Prop :=
  (300 <= k <= 3000)%Z /\ (120 <= h <= 250)%Z /\ (16 <= a <= 99)%Z
  /\ weight data = Z2float k / 10
  /\ height data = Z2float h
  /\ age data = Z2float a.

(** A parsed value that [generateWorkoutRoutine] accepts: an object whose
    [routineTitle], [weeklySchedule] and [generalNotes] are truthy. *)
Definition acceptedRoutine (v : json) : Prop :=
  exists props title schedule notes,
    v = JObj props
    /\ lookupProp (lit "routineTitle") props = Some title
    /\ truthyJson title = true
    /\ lookupProp (lit "weeklySchedule") props = Some schedule
    /\ truthyJson schedule = true
    /\ lookupProp (lit "generalNotes") props = Some notes
    /\ truthyJson notes = true.

(** A spec float other than NaN whose sign bit is [s]. *)
Definition SFsigned (s : bool) (x : spec_float) : Prop :=
  match x with
  | S754_zero s' | S754_infinity s' | S754_finite s' _ _ => s' = s
  | S754_nan => False
  end.

(** A spec float that is a zero of either sign, positive or plus
    infinity: the ones that [0 <= x] holds for. *)
Definition SFnonneg (x : spec_float) : Prop :=
  match x with
  | S754_zero _ | S754_infinity false | S754_finite false _ _ => True
  | _ => False
  end.

(** A finite spec float other than zero. *)
Definition SFfinite (x : spec_float) : Prop :=
  match x with
  | S754_finite _ _ _ => True
  | _ => False
  end.

(** A zero or a finite spec float: neither NaN nor an infinity. *)
Definition SFordinary (x : spec_float) : Prop :=
  match x with
  | S754_zero _ | S754_finite _ _ _ => True
  | _ => False
  end.

(** A positive spec float, plus infinity included: the ones that
    [0 < x] holds for. *)
Definition SFpositive (x : spec_float) : Prop :=
  match x with
  | S754_finite false _ _ | S754_infinity false => True
  | _ => False
  end.

(* ================================================================== *)
(** * Sample forms *)
(* ================================================================== *)

(** The first sample person, as typed into the form. *)
Definition form_navyMale : FormState :=
  mkFormState (lit "30") Male (lit "175") (lit "75") (lit "3") Maintenance
    Strength (lit "38") (lit "85") [].

(** The same person with a neck wider than the waist. *)
Definition form_thickNeck : FormState :=
  mkFormState (lit "30") Male (lit "175") (lit "75") (lit "3") Maintenance
    Strength (lit "90") (lit "85") [].

(** A female with the three circumferences. *)
Definition form_navyFemale : FormState :=
  mkFormState (lit "28") Female (lit "165") (lit "60.5") (lit "4") Cutting
    Hypertrophy (lit "32") (lit "70") (lit "95").

(** No circumference given. *)
Definition form_noMeasures : FormState :=
  mkFormState (lit "30") Male (lit "175") (lit "75") (lit "3") Maintenance
    Strength [] [] [].

(** A height that [parseFloat] reads and [parseInt] does not. *)
Definition form_oddHeight : FormState :=
  mkFormState (lit "30") Male (lit ".12e3") (lit "75") (lit "3") Maintenance
    Strength [] [] [].

(* ================================================================== *)
(** * Strings and the method normalizer: proofs *)
(* ================================================================== *)

Lemma str_eqb_eq (a b : jsstring) : str_eqb a b = true <-> a = b.
Proof.
  revert b; induction a as [|x a IH]; intros [|y b]; simpl;
    try (split; [discriminate | discriminate]); try tauto.
  rewrite andb_true_iff, N.eqb_eq, IH.
  split; [intros [-> ->]; reflexivity | intros H; inversion H; auto].
Qed.

Lemma includes_In (xs : list jsstring) (key : jsstring) :
  includes xs key = true <-> In key xs.
Proof.
  unfold includes. rewrite existsb_exists. split.
  - intros (y & Hy & E). apply str_eqb_eq in E. now subst.
  - intros H. exists key. split; [assumption | now apply str_eqb_eq].
Qed.

Lemma includes_not_In (xs : list jsstring) (key : jsstring) :
  includes xs key = false <-> ~ In key xs.
Proof.
  rewrite <- includes_In. destruct (includes xs key); split;
    congruence.
Qed.

Lemma aliases_disjoint (key : jsstring) :
  In key navyAliases -> In key deurenbergAliases -> False.
Proof.
  intros Hn Hd. unfold navyAliases in Hn. unfold deurenbergAliases in Hd.
  simpl in Hn, Hd.
  repeat match goal with
         | H : _ \/ _ |- _ => destruct H
         | H : False |- _ => destruct H
         end; subst; discriminate.
Qed.

Lemma empty_key_not_alias :
  ~ In (toLowerCase (trim [])) navyAliases
  /\ ~ In (toLowerCase (trim [])) deurenbergAliases.
Proof.
  split; intros H; vm_compute in H;
    repeat (destruct H as [H|H]; [discriminate H|]); destruct H.
Qed.

(** Clears the bookkeeping of a case of [normalizeMethodKey]. *)
Ltac method_case :=
  repeat match goal with
         | H : Some _ = Some _ |- _ => inversion H; subst; clear H
         | H : None = Some _ |- _ => discriminate H
         | H : Some _ = None |- _ => discriminate H
         | H : (_ :: _) = [] |- _ => discriminate H
         | H : exists _, _ |- _ => destruct H
         | H : _ /\ _ |- _ => destruct H
         | H : _ \/ _ |- _ => destruct H
         | H : ?x <> ?x |- _ => destruct (H eq_refl)
         | H : navy = deurenberg |- _ => discriminate H
         | H : deurenberg = navy |- _ => discriminate H
         end.

(** C4. [normalizeMethodKey] returns on every input, a string or
    [undefined]: the key is ['navy'] exactly when the trimmed, lower-cased
    input is one of the five navy aliases and ['deurenberg'] otherwise; a
    deurenberg alias is accepted silently, an empty or absent input emits
    the first warning and any other input the second one. *)
Theorem normalizeMethodKey_total (method : option jsstring) :
  exists (k : MethodKey) (warnings : list jsstring),
    normalizeMethodKey method = (k, warnings)
    /\ (k = navy <->
        exists s, method = Some s
          /\ In (toLowerCase (trim s))
               [lit "navy"; lit "us_navy"; lit "us-navy"; lit "u.s. navy";
                lit "usnavy"])
    /\ (k = deurenberg <->
        ~ exists s, method = Some s
          /\ In (toLowerCase (trim s))
               [lit "navy"; lit "us_navy"; lit "us-navy"; lit "u.s. navy";
                lit "usnavy"])
    /\ ((exists s, method = Some s
          /\ In (toLowerCase (trim s))
               [lit "deurenberg"; lit "deurenberg1991"; lit "d1991"]) ->
        k = deurenberg /\ warnings = [])
    /\ (method = None \/ method = Some [] ->
        k = deurenberg /\ warnings = [warnEmpty])
    /\ (forall s, method = Some s -> s <> [] ->
        ~ In (toLowerCase (trim s)) navyAliases ->
        ~ In (toLowerCase (trim s)) deurenbergAliases ->
        k = deurenberg /\ warnings = [warnUnknown s]).
Proof.
  change [lit "navy"; lit "us_navy"; lit "us-navy"; lit "u.s. navy";
          lit "usnavy"] with navyAliases.
  change [lit "deurenberg"; lit "deurenberg1991"; lit "d1991"]
    with deurenbergAliases.
  destruct empty_key_not_alias as [En Ed].
  destruct method as [[|c s]|].
  - (* the empty string *)
    exists deurenberg, [warnEmpty]. unfold normalizeMethodKey.
    repeat split; intros; method_case; auto; try discriminate;
      try (intro; method_case); tauto.
  - (* a non-empty string *)
    unfold normalizeMethodKey.
    set (key := toLowerCase (trim (c :: s))).
    destruct (includes navyAliases key) eqn:Hn;
      [| destruct (includes deurenbergAliases key) eqn:Hd].
    + apply includes_In in Hn.
      exists navy, [].
      repeat split; intros; method_case; auto; try discriminate;
        try (exfalso; eauto using aliases_disjoint; fail);
        try tauto;
        try (exists (c :: s); auto; fail);
        try (match goal with H : ~ _ |- _ => destruct H end;
             exists (c :: s); auto).
    + apply includes_not_In in Hn. apply includes_In in Hd.
      exists deurenberg, [].
      repeat split; intros; method_case; auto; try discriminate;
        try (intro; method_case); try tauto.
    + apply includes_not_In in Hn. apply includes_not_In in Hd.
      exists deurenberg, [warnUnknown (c :: s)].
      repeat split; intros; method_case; auto; try discriminate;
        try (intro; method_case); try tauto.
  - (* undefined *)
    exists deurenberg, [warnEmpty]. unfold normalizeMethodKey.
    repeat split; intros; method_case; auto; try discriminate;
      try (intro; method_case); tauto.
Qed.

(** C8. [normalizeMethodKey] is idempotent: normalizing the key it
    returned gives that key again (and warns about nothing), because
    'navy' and 'deurenberg' are aliases of themselves. *)
Theorem normalizeMethodKey_idempotent (x : option jsstring) :
  fst (normalizeMethodKey (Some (keyString (fst (normalizeMethodKey x)))))
  = fst (normalizeMethodKey x)
  /\ snd (normalizeMethodKey (Some (keyString (fst (normalizeMethodKey x)))))
     = []
  /\ In (keyString navy) navyAliases
  /\ In (keyString deurenberg) deurenbergAliases.
Proof.
  repeat split.
  - destruct (fst (normalizeMethodKey x)); vm_compute; reflexivity.
  - destruct (fst (normalizeMethodKey x)); vm_compute; reflexivity.
  - vm_compute. auto.
  - vm_compute. auto.
Qed.

(* ================================================================== *)
(** * Binary64 order facts *)
(* ================================================================== *)

Lemma Prim2SF_not_nan (x : float) :
  is_nan x = false -> Prim2SF x <> S754_nan.
Proof.
  unfold is_nan. rewrite eqb_spec. intros H E. rewrite E in H.
  discriminate H.
Qed.

(** The order of two positive finite binary floats, read off their
    exponents and mantissas as [SFcompare] does. *)
Lemma SFleb_pos (m1 : positive) (e1 : Z) (m2 : positive) (e2 : Z) :
  SFleb (S754_finite false m1 e1) (S754_finite false m2 e2) = true
  <-> (e1 < e2)%Z \/ (e1 = e2 /\ (Z.pos m1 <= Z.pos m2)%Z).
Proof.
  cbv [SFleb SFcompare].
  destruct (Z.compare_spec e1 e2) as [E|E|E].
  - fold (Pos.compare m1 m2).
    destruct (Pos.compare_spec m1 m2) as [P|P|P]; split; intros H;
      try discriminate; try reflexivity; try lia.
  - split; [intros _; lia | reflexivity].
  - split; [discriminate | lia].
Qed.

Lemma SFltb_pos (m1 : positive) (e1 : Z) (m2 : positive) (e2 : Z) :
  SFltb (S754_finite false m1 e1) (S754_finite false m2 e2) = true
  <-> (e1 < e2)%Z \/ (e1 = e2 /\ (Z.pos m1 < Z.pos m2)%Z).
Proof.
  cbv [SFltb SFcompare].
  destruct (Z.compare_spec e1 e2) as [E|E|E].
  - fold (Pos.compare m1 m2).
    destruct (Pos.compare_spec m1 m2) as [P|P|P]; split; intros H;
      try discriminate; try reflexivity; try lia.
  - split; [intros _; lia | reflexivity].
  - split; [discriminate | lia].
Qed.

Lemma SFltb_pos_false (m1 : positive) (e1 : Z) (m2 : positive) (e2 : Z) :
  SFltb (S754_finite false m1 e1) (S754_finite false m2 e2) = false
  <-> (e2 < e1)%Z \/ (e1 = e2 /\ (Z.pos m2 <= Z.pos m1)%Z).
Proof.
  pose proof (SFltb_pos m1 e1 m2 e2) as H.
  destruct (SFltb _ _); split; intros H'; try reflexivity;
    try discriminate.
  - destruct H as [H _]. specialize (H eq_refl). lia.
  - destruct (Z.lt_trichotomy e1 e2) as [L|[L|L]];
      [| destruct (Pos.lt_total m1 m2) as [P|[P|P]] |]; try lia;
      assert (false = true) by (apply H; lia); discriminate.
Qed.

Lemma SFleb_pos_false (m1 : positive) (e1 : Z) (m2 : positive) (e2 : Z) :
  SFleb (S754_finite false m1 e1) (S754_finite false m2 e2) = false
  <-> (e2 < e1)%Z \/ (e1 = e2 /\ (Z.pos m2 < Z.pos m1)%Z).
Proof.
  pose proof (SFleb_pos m1 e1 m2 e2) as H.
  destruct (SFleb _ _); split; intros H'; try reflexivity;
    try discriminate.
  - destruct H as [H _]. specialize (H eq_refl). lia.
  - destruct (Z.lt_trichotomy e1 e2) as [L|[L|L]];
      [| destruct (Pos.lt_total m1 m2) as [P|[P|P]] |]; try lia;
      assert (false = true) by (apply H; lia); discriminate.
Qed.

(** Replaces [Prim2SF c] by its value for every float [c] other than [x]. *)
Ltac sf_constants x :=
  repeat match goal with
         | |- context [Prim2SF ?c] =>
             lazymatch c with
             | x => fail
             | _ => let v := eval vm_compute in (Prim2SF c) in
                    change (Prim2SF c) with v in *
             end
         | H : context [Prim2SF ?c] |- _ =>
             lazymatch c with
             | x => fail
             | _ => let v := eval vm_compute in (Prim2SF c) in
                    change (Prim2SF c) with v in *
             end
         end.

(** Decides a goal about comparisons between the float [x] and
    constants, by cases on the binary representation of [x]. *)
Ltac float_order x :=
  rewrite ?ltb_spec, ?leb_spec in *;
  sf_constants x;
  let s := fresh "s" in
  let m := fresh "m" in
  let e := fresh "e" in
  destruct (Prim2SF x) as [s|s| |s m e];
  try destruct s;
  try (rewrite ?SFleb_pos, ?SFltb_pos, ?SFleb_pos_false, ?SFltb_pos_false
        in *; lia);
  cbv [SFltb SFleb SFcompare] in *;
  try discriminate; try reflexivity; try congruence.

Lemma not_lt_50_le (x : float) :
  is_nan x = false -> (50 <? x) = false -> (x <=? 50) = true.
Proof.
  intros N H. apply Prim2SF_not_nan in N. float_order x.
Qed.

Lemma lt_5_le (x : float) : (5 <? x) = true -> (5 <=? x) = true.
Proof. intros H. float_order x. Qed.


(** The clamp of line 83 lands in [[5, 50]] unless it meets NaN. *)
Lemma clamp_bounds (x : float) :
  is_nan x = false ->
  (5 <=? Math_max 5 (Math_min 50 x)) = true
  /\ (Math_max 5 (Math_min 50 x) <=? 50) = true.
Proof.
  intros N. unfold Math_min.
  change (is_nan 50) with false. rewrite N. cbn [orb].
  change (is_zero 50 && get_sign 50) with false. cbv iota.
  destruct (50 <? x) eqn:H50.
  - split; reflexivity.
  - assert (Hmin : (if x <? 50 then x else x) = x) by (destruct (x <? 50); reflexivity).
    rewrite Hmin. unfold Math_max.
    change (is_nan 5) with false. rewrite N. cbn [orb].
    change (is_zero 5 && get_sign 5) with false. cbv iota.
    destruct (5 <? x) eqn:H5.
    + split; [apply lt_5_le | apply not_lt_50_le]; assumption.
    + destruct (x <? 5); split; reflexivity.
Qed.

Lemma clamp_nan (x : float) :
  is_nan x = true -> Math_max 5 (Math_min 50 x) = nan.
Proof.
  intros N. unfold Math_min. rewrite N, orb_true_r. reflexivity.
Qed.

Lemma digits2_pos_size (m : positive) : digits2_pos m = Pos.size m.
Proof. induction m; simpl; congruence. Qed.

(** A valid finite float above the subnormal range has a 53-bit mantissa. *)
Lemma valid_normal (s : bool) (m : positive) (e : Z) :
  valid_binary (S754_finite s m e) = true ->
  (-1074 < e)%Z ->
  (4503599627370496 <= Z.pos m < 9007199254740992)%Z.
Proof.
  intros V He.
  cbv [SpecFloat.valid_binary bounded canonical_mantissa fexp SpecFloat.emin
       prec emax] in V.
  apply andb_true_iff in V. destruct V as [V _].
  apply Z.eqb_eq in V.
  assert (D : digits2_pos m = 53%positive) by lia.
  rewrite digits2_pos_size in D.
  pose proof (Pos.size_gt m) as G. pose proof (Pos.size_le m) as L.
  rewrite D in G, L.
  apply Pos2Z.pos_lt_pos in G. apply Pos2Z.pos_le_pos in L.
  change (Z.pos (2 ^ 53)) with 9007199254740992%Z in G, L.
  rewrite Pos2Z.inj_xO in L. lia.
Qed.

(** Every tenth from 5.0 to 50.0 reads back as a double of [[5, 50]]. *)
Lemma tenths_read_back (n : Z) :
  (50 <= n <= 500)%Z -> inRange (Z2float n / 10) = true.
Proof.
  intros Hn.
  assert (A : forallb (fun k => inRange (Z2float (Z.of_nat k) / 10))
                (seq 50 451) = true) by (vm_compute; reflexivity).
  rewrite forallb_forall in A.
  specialize (A (Z.to_nat n)). rewrite Z2Nat.id in A by lia.
  apply A. apply in_seq. lia.
Qed.

(** Rounding a double of [[5, 50]] to one decimal stays in [[5, 50]]. *)
Lemma toFixed1_inRange (c : float) :
  (5 <=? c) = true -> (c <=? 50) = true ->
  inRange (parseFloat_toFixed1 c) = true.
Proof.
  intros H5 H50.
  pose proof (Prim2SF_valid c) as V.
  unfold parseFloat_toFixed1.
  rewrite leb_spec in H5, H50 |- *. rewrite abs_spec.
  sf_constants c.
  destruct (Prim2SF c) as [s|s| |s m e]; try destruct s;
    try (cbv [SFleb SFcompare] in H5, H50; discriminate).
  rewrite SFleb_pos in H5, H50.
  cbv [SFabs].
  destruct (SFleb (S754_finite false 4503599627370496 (-3))
              (S754_finite false m e)) eqn:Big.
  { rewrite SFleb_pos in Big. lia. }
  apply valid_normal in V; [| lia].
  apply tenths_read_back.
  unfold tenths.
  assert (E : (e = -50 \/ e = -49 \/ e = -48 \/ e = -47)%Z) by lia.
  destruct E as [E|[E|[E|E]]]; subst e;
    match goal with
    | |- context [(0 <=? ?k)%Z] => change (0 <=? k)%Z with false; cbv iota
    end;
    repeat match goal with
           | |- context [(2 ^ ?k)%Z] =>
               let v := eval vm_compute in (2 ^ k)%Z in
               change (2 ^ k)%Z with v
           end;
    (split;
     [apply Z.div_le_lower_bound | apply Z.lt_succ_r, Z.div_lt_upper_bound]);
    lia.
Qed.

(** The tiers of the activity multiplier do not overlap. *)
Lemma tier_1_2 (x : float) : (2 <=? x) = true -> (x <=? 1) = false.
Proof.
  intros H. destruct (x <=? 1) eqn:H1; [exfalso | reflexivity].
  float_order x.
Qed.

Lemma tier_3_4 (x : float) : (4 <=? x) = true -> (x <=? 3) = false.
Proof.
  intros H. destruct (x <=? 3) eqn:H1; [exfalso | reflexivity].
  float_order x.
Qed.

Lemma tier_5_6 (x : float) : (6 <=? x) = true -> (x <=? 5) = false.
Proof.
  intros H. destruct (x <=? 5) eqn:H1; [exfalso | reflexivity].
  float_order x.
Qed.

Lemma tier_1_4 (x : float) : (4 <=? x) = true -> (x <=? 1) = false.
Proof.
  intros H. destruct (x <=? 1) eqn:H1; [exfalso | reflexivity].
  float_order x.
Qed.

Lemma tier_1_6 (x : float) : (6 <=? x) = true -> (x <=? 1) = false.
Proof.
  intros H. destruct (x <=? 1) eqn:H1; [exfalso | reflexivity].
  float_order x.
Qed.

Lemma tier_3_6 (x : float) : (6 <=? x) = true -> (x <=? 3) = false.
Proof.
  intros H. destruct (x <=? 3) eqn:H1; [exfalso | reflexivity].
  float_order x.
Qed.

(* ================================================================== *)
(** * Truthiness of the optional measurements *)
(* ================================================================== *)

Lemma truthyOpt_measured (o : option float) :
  truthyOpt o = true <-> measured o.
Proof.
  unfold truthyOpt, measured, truthy. split.
  - destruct o as [x|]; [| discriminate].
    intros H. apply negb_true_iff, orb_false_iff in H.
    exists x. tauto.
  - intros (x & -> & Z & N). rewrite Z, N. reflexivity.
Qed.

Lemma suppliedZero_falsy (o : option float) :
  suppliedZero o -> truthyOpt o = false.
Proof.
  intros (x & -> & Z). unfold truthyOpt, truthy. rewrite Z. reflexivity.
Qed.

(* ================================================================== *)
(** * The metrics calculator: proofs *)
(* ================================================================== *)

Section CalculatorFacts.

Variable log10_impl : float -> float.

(** C1 (amended).  For every profile, [bodyFatPercentage] lies in
    [[5.0, 50.0]] whenever the selected formula yields a number; when the
    formula yields NaN, line 83 passes the NaN on. *)
Theorem bodyFatPercentage_range (data : UserData) :
  let raw := calc_bodyFat log10_impl data in
  let r := calculateFitnessMetrics log10_impl data in
  (is_nan raw = true /\ bodyFatPercentage r = nan)
  \/ (is_nan raw = false /\ inRange (bodyFatPercentage r) = true).
Proof.
  cbn zeta. cbn [calculateFitnessMetrics bodyFatPercentage].
  unfold calc_bodyFatPercentage.
  destruct (is_nan (calc_bodyFat log10_impl data)) eqn:N.
  - left. split; [reflexivity |].
    rewrite clamp_nan by assumption. reflexivity.
  - right. split; [reflexivity |].
    destruct (clamp_bounds _ N) as [L U].
    apply toFixed1_inRange; assumption.
Qed.

(** C2 (amended).  [bodyFatMethod] is 'navy' if and only if neck and
    waist are measured (present, and neither zero nor NaN), the sex is
    male, or female with the hip measured, and the measurements are valid
    (male: waist > neck; female: waist + hip > neck); in every other case
    it is 'deurenberg'. *)
Theorem bodyFatMethod_selection (data : UserData) :
  let r := calculateFitnessMetrics log10_impl data in
  (bodyFatMethod r = navy <-> navyApplies data)
  /\ (bodyFatMethod r = deurenberg <-> ~ navyApplies data).
Proof.
  cbn zeta. cbn [calculateFitnessMetrics bodyFatMethod].
  assert (A : calc_bodyFatMethod data = navy <-> navyApplies data).
  { unfold calc_bodyFatMethod, calc_navyIsValid, calc_useNavy, navyApplies,
      spec_navyValid, gender_is.
    rewrite <- !truthyOpt_measured.
    destruct (gender data);
      destruct (truthyOpt (neck data)), (truthyOpt (waist data)),
        (truthyOpt (hip data));
      cbn [andb orb];
      try match goal with
          | |- context [if ?c then true else false] => destruct c
          end;
      split; intros H; try discriminate; try reflexivity;
      try (repeat split; auto; fail);
      try (destruct H as (H1 & H2 & H3 & H4); try discriminate;
           destruct H3 as [H3|[H3 H3']]; discriminate). }
  split; [exact A |].
  destruct (calc_bodyFatMethod data); split; intros H;
    try discriminate; try reflexivity.
  - destruct H. apply A. reflexivity.
  - intros Hn. apply A in Hn. discriminate.
Qed.

(** C3.  With the Navy method the body fat is the male or the female
    Navy formula, with Deurenberg it is
    [1.20 BMI + 0.23 age - 10.8 (1 if male else 0) - 5.4] on the BMI
    rounded to one decimal; the value is then clamped to [[5, 50]] and
    rounded to one decimal. *)
Theorem bodyFat_formulas (data : UserData) :
  let r := calculateFitnessMetrics log10_impl data in
  bmi r
  = parseFloat_toFixed1
      (weight data / ((height data / 100) * (height data / 100)))
  /\ bodyFatPercentage r
     = spec_clampRound
         (match bodyFatMethod r, gender data with
          | navy, Male => spec_navyMale log10_impl data
          | navy, Female => spec_navyFemale log10_impl data
          | deurenberg, _ => spec_deurenberg (bmi r) data
          end).
Proof.
  cbn zeta. cbn [calculateFitnessMetrics bodyFatPercentage bodyFatMethod bmi].
  split; [reflexivity |].
  unfold calc_bodyFatPercentage, spec_clampRound, calc_bodyFat,
    calc_bodyFatMethod, gender_is, spec_deurenberg, spec_navyMale,
    spec_navyFemale.
  destruct (calc_useNavy data && calc_navyIsValid data);
    destruct (gender data); reflexivity.
Qed.

(** C5 (amended).  The BMR is the Mifflin-St Jeor value rounded to the
    nearest integer; for a male of age 30, height 175 cm and weight 75 kg
    it is 1699. *)
Theorem bmr_mifflinStJeor (data : UserData) :
  let r := calculateFitnessMetrics log10_impl data in
  bmr r = Math_round (spec_mifflinStJeor data)
  /\ (gender data = Male -> age data = 30 -> height data = 175 ->
      weight data = 75 -> bmr r = 1699).
Proof.
  cbn zeta. cbn [calculateFitnessMetrics bmr].
  unfold calc_bmr, spec_mifflinStJeor, gender_is. split.
  - destruct (gender data); reflexivity.
  - intros -> -> -> ->. vm_compute. reflexivity.
Qed.

(** C6.  The activity multiplier follows the tiers of the weekly
    training-day count (at most 1: 1.40; 2 to 3: 1.55; 4 to 5: 1.70; 6 or
    more: 1.85), and [tdee] is the rounded product of the rounded BMR and
    that multiplier. *)
Theorem pal_tiers_and_tdee (data : UserData) :
  let r := calculateFitnessMetrics log10_impl data in
  let days := trainingDays data in
  ((days <=? 1) = true -> calc_pal data = 1.40)
  /\ ((2 <=? days) = true -> (days <=? 3) = true -> calc_pal data = 1.55)
  /\ ((4 <=? days) = true -> (days <=? 5) = true -> calc_pal data = 1.70)
  /\ ((6 <=? days) = true -> calc_pal data = 1.85)
  /\ tdee r = Math_round (bmr r * calc_pal data).
Proof.
  cbn zeta. cbn [calculateFitnessMetrics bmr tdee]. unfold calc_pal.
  repeat split.
  - intros ->. reflexivity.
  - intros L U. rewrite (tier_1_2 _ L), U. reflexivity.
  - intros L U. rewrite (tier_1_4 _ L), (tier_3_4 _ L), U. reflexivity.
  - intros L. rewrite (tier_1_6 _ L), (tier_3_6 _ L), (tier_5_6 _ L).
    reflexivity.
Qed.

(** C7.  The calorie targets are maintenance = TDEE,
    cutting = TDEE - round(TDEE 0.15) and bulking = TDEE + round(TDEE 0.10);
    a TDEE of 2500 gives 2125 and 2750. *)
Theorem targetCalories_formulas (data : UserData) :
  let r := calculateFitnessMetrics log10_impl data in
  maintenance (targetCalories r) = tdee r
  /\ cutting (targetCalories r) = tdee r - Math_round (tdee r * 0.15)
  /\ bulking (targetCalories r) = tdee r + Math_round (tdee r * 0.10)
  /\ (tdee r = 2500 ->
      cutting (targetCalories r) = 2125
      /\ bulking (targetCalories r) = 2750).
Proof.
  cbn zeta.
  cbn [calculateFitnessMetrics tdee targetCalories maintenance cutting
       bulking].
  unfold calc_maintenance, calc_cutting, calc_bulking.
  repeat split; try reflexivity; rewrite H; vm_compute; reflexivity.
Qed.

(** C9.  Two profiles that agree on age, gender, height, weight,
    trainingDays, neck, waist and hip have equal results, whatever their
    goal and focus. *)
Theorem goal_focus_irrelevant (d1 d2 : UserData) :
  age d1 = age d2 -> gender d1 = gender d2 -> height d1 = height d2 ->
  weight d1 = weight d2 -> trainingDays d1 = trainingDays d2 ->
  neck d1 = neck d2 -> waist d1 = waist d2 -> hip d1 = hip d2 ->
  calculateFitnessMetrics log10_impl d1
  = calculateFitnessMetrics log10_impl d2.
Proof.
  destruct d1, d2. cbn [age gender height weight trainingDays neck waist hip].
  intros -> -> -> -> -> -> -> ->. reflexivity.
Qed.

(** C10.  A neck or waist measurement of 0, or for a female a hip
    measurement of 0, makes the calculator take the Deurenberg fallback
    and report 'deurenberg'. *)
Theorem zero_measurement_falls_back (data : UserData) :
  suppliedZero (neck data) \/ suppliedZero (waist data)
  \/ (gender data = Female /\ suppliedZero (hip data)) ->
  let r := calculateFitnessMetrics log10_impl data in
  bodyFatMethod r = deurenberg
  /\ bodyFatPercentage r = spec_clampRound (spec_deurenberg (bmi r) data).
Proof.
  intros H. cbn zeta.
  cbn [calculateFitnessMetrics bodyFatPercentage bodyFatMethod bmi].
  assert (U : calc_useNavy data = false).
  { unfold calc_useNavy, gender_is.
    destruct H as [H|[H|[G H]]]; apply suppliedZero_falsy in H;
      rewrite H; [| | rewrite G];
      repeat first [rewrite andb_false_r | rewrite andb_false_l
                   | rewrite orb_false_l]; reflexivity. }
  unfold calc_bodyFatMethod, calc_bodyFatPercentage, calc_bodyFat,
    spec_clampRound, spec_deurenberg, gender_is.
  rewrite U. cbn [andb]. split; [reflexivity |].
  destruct (gender data); reflexivity.
Qed.

End CalculatorFacts.

(* ================================================================== *)
(** * The calculator on the sample profiles *)
(* ================================================================== *)

(** The text of the two warnings, on the empty string, on an unknown
    label and on [undefined], and a navy alias in capitals with blanks
    around it. *)
Example normalizeMethodKey_samples :
  normalizeMethodKey (Some []) = (deurenberg, [warnEmpty])
  /\ normalizeMethodKey None = (deurenberg, [warnEmpty])
  /\ normalizeMethodKey (Some (lit "bogus"))
     = (deurenberg, [warnUnknown (lit "bogus")])
  /\ normalizeMethodKey (Some (lit "  U.S. Navy ")) = (navy, [])
  /\ normalizeMethodKey (Some (lit "D1991")) = (deurenberg, []).
Proof. repeat split; vm_compute; reflexivity. Qed.

(** [Math.round] on a fraction, on ties of both signs, just below one
    half, on a small negative number and on values it returns unchanged. *)
Example Math_round_samples :
  Math_round 1698.75 = 1699
  /\ Math_round 2.5 = 3
  /\ Math_round (-2.5) = -2
  /\ Math_round 0.49999999999999994 = 0
  /\ Math_round (-0.2) = neg_zero
  /\ Math_round 4503599627370497 = 4503599627370497
  /\ Math_round nan = nan
  /\ Math_round neg_infinity = neg_infinity.
Proof. repeat split; vm_compute; reflexivity. Qed.

(** [parseFloat(x.toFixed(1))] on a BMI, on a tie, on a decimal whose
    double lies below the tie, on a small negative number and on values
    that print by name or in full. *)
Example parseFloat_toFixed1_samples :
  parseFloat_toFixed1 24.489795918367346 = 24.5
  /\ parseFloat_toFixed1 0.25 = 0.3
  /\ parseFloat_toFixed1 1.45 = 1.4
  /\ parseFloat_toFixed1 (-0.04) = neg_zero
  /\ parseFloat_toFixed1 neg_zero = 0
  /\ parseFloat_toFixed1 nan = nan
  /\ parseFloat_toFixed1 infinity = infinity
  /\ parseFloat_toFixed1 1e22 = 1e22.
Proof. repeat split; vm_compute; reflexivity. Qed.

(** The first example of the specification, with the sample logarithm. *)
Example profile_navyMale_result :
  calculateFitnessMetrics log10_series profile_navyMale
  = {| bmi := 24.5;
       bodyFatPercentage := 16.9;
       bodyFatMethod := navy;
       bmr := 1699;
       tdee := 2633;
       targetCalories :=
         {| maintenance := 2633; bulking := 2896; cutting := 2238 |} |}.
Proof. vm_compute. reflexivity. Qed.

(** C1, counterexample: with weight 0 and height 0 the BMI is 0/0, and
    with a negative height the Navy formula takes the logarithm of a
    negative number; either way [bodyFatPercentage] is NaN, which is not
    in [[5, 50]]. *)
Lemma bodyFatPercentage_can_be_nan :
  bodyFatPercentage (calculateFitnessMetrics log10_series profile_zeroHeight)
  = nan
  /\ inRange
       (bodyFatPercentage
          (calculateFitnessMetrics log10_series profile_zeroHeight))
     = false
  /\ bodyFatPercentage
       (calculateFitnessMetrics log10_series profile_negativeHeight)
     = nan.
Proof. repeat split; vm_compute; reflexivity. Qed.

(** C2, counterexample: a male with neck 0 and waist 85 has both
    measurements present and waist > neck, yet the method is
    'deurenberg'. *)
Lemma navy_skipped_for_zero_neck :
  spec_navyEligible profile_neckZero = true
  /\ spec_navyValid profile_neckZero = true
  /\ bodyFatMethod (calculateFitnessMetrics log10_series profile_neckZero)
     = deurenberg.
Proof. repeat split; vm_compute; reflexivity. Qed.

(** C5, counterexample: for the male of age 30, height 175 cm and weight
    75 kg the equation gives 1698.75 and the BMR is 1699, not 1649. *)
Lemma bmr_of_example_is_not_1649 :
  spec_mifflinStJeor profile_navyMale = 1698.75
  /\ bmr (calculateFitnessMetrics log10_series profile_navyMale) = 1699
  /\ (bmr (calculateFitnessMetrics log10_series profile_navyMale) =? 1649)
     = false.
Proof. repeat split; vm_compute; reflexivity. Qed.

(** C5, witness. *)
Lemma bmr_of_example :
  bmr (calculateFitnessMetrics log10_series profile_navyMale) = 1699.
Proof.
  apply (proj2 (bmr_mifflinStJeor log10_series profile_navyMale));
    reflexivity.
Defined.

(** C6, witness: the boundary days 1 to 7. *)
Lemma pal_boundary_days :
  calc_pal (profile_days 1) = 1.40
  /\ calc_pal (profile_days 2) = 1.55
  /\ calc_pal (profile_days 3) = 1.55
  /\ calc_pal (profile_days 4) = 1.70
  /\ calc_pal (profile_days 5) = 1.70
  /\ calc_pal (profile_days 6) = 1.85
  /\ calc_pal (profile_days 7) = 1.85.
Proof.
  refine (conj _ (conj _ (conj _ (conj _ (conj _ (conj _ _)))))).
  - destruct (pal_tiers_and_tdee log10_series (profile_days 1))
      as (T1 & _). apply T1. reflexivity.
  - destruct (pal_tiers_and_tdee log10_series (profile_days 2))
      as (_ & T2 & _). apply T2; reflexivity.
  - destruct (pal_tiers_and_tdee log10_series (profile_days 3))
      as (_ & T2 & _). apply T2; reflexivity.
  - destruct (pal_tiers_and_tdee log10_series (profile_days 4))
      as (_ & _ & T3 & _). apply T3; reflexivity.
  - destruct (pal_tiers_and_tdee log10_series (profile_days 5))
      as (_ & _ & T3 & _). apply T3; reflexivity.
  - destruct (pal_tiers_and_tdee log10_series (profile_days 6))
      as (_ & _ & _ & T4 & _). apply T4; reflexivity.
  - destruct (pal_tiers_and_tdee log10_series (profile_days 7))
      as (_ & _ & _ & T4 & _). apply T4; reflexivity.
Defined.

(** C7, witness: a profile whose TDEE is 2500. *)
Lemma targetCalories_of_2500 :
  cutting (targetCalories
             (calculateFitnessMetrics log10_series profile_tdee2500))
  = 2125
  /\ bulking (targetCalories
                (calculateFitnessMetrics log10_series profile_tdee2500))
     = 2750.
Proof.
  apply (proj2 (proj2 (proj2
    (targetCalories_formulas log10_series profile_tdee2500)))).
  vm_compute. reflexivity.
Defined.

(** C9, witness: the sample person with two goals and focuses. *)
Lemma goal_focus_irrelevant_sample :
  calculateFitnessMetrics log10_series profile_navyMale
  = calculateFitnessMetrics log10_series profile_navyMale_bulking.
Proof.
  apply (goal_focus_irrelevant log10_series profile_navyMale
           profile_navyMale_bulking); reflexivity.
Defined.

(** C10, witness: the sample person with a neck measurement of 0. *)
Lemma zero_neck_falls_back :
  bodyFatMethod (calculateFitnessMetrics log10_series profile_neckZero)
  = deurenberg
  /\ bodyFatPercentage
       (calculateFitnessMetrics log10_series profile_neckZero)
     = spec_clampRound
         (spec_deurenberg
            (bmi (calculateFitnessMetrics log10_series profile_neckZero))
            profile_neckZero).
Proof.
  apply (zero_measurement_falls_back log10_series profile_neckZero).
  left. exists 0. split; reflexivity.
Defined.

(* ================================================================== *)
(** * The order of binary64 values: proofs *)
(* ================================================================== *)

Lemma SFcompare_pos (m1 : positive) (e1 : Z) (m2 : positive) (e2 : Z) :
  SFcompare (S754_finite false m1 e1) (S754_finite false m2 e2)
  = Some (match (e1 ?= e2)%Z with
          | Eq => (Z.pos m1 ?= Z.pos m2)%Z
          | c => c
          end).
Proof. cbv [SFcompare]. destruct (e1 ?= e2)%Z; reflexivity. Qed.

Lemma SFcompare_neg (m1 : positive) (e1 : Z) (m2 : positive) (e2 : Z) :
  SFcompare (S754_finite true m1 e1) (S754_finite true m2 e2)
  = Some (match (e1 ?= e2)%Z with
          | Eq => CompOpp (Z.pos m1 ?= Z.pos m2)%Z
          | Lt => Gt
          | Gt => Lt
          end).
Proof. cbv [SFcompare]. destruct (e1 ?= e2)%Z; reflexivity. Qed.

(** Splits the comparisons of exponents and mantissas that a goal holds. *)
Ltac compare_cases :=
  repeat match goal with
         | |- context [(?a ?= ?b)%Z] =>
             destruct (Z.compare_spec a b); cbn [CompOpp]
         end.

Lemma SFleb_key (x y : spec_float) :
  SFleb x y = true
  <-> match SFkey x, SFkey y with
      | Some a, Some b => key_le a b
      | _, _ => False
      end.
Proof.
  unfold SFleb.
  destruct x as [sx|sx| |sx mx ex], y as [sy|sy| |sy my ey];
    try destruct sx; try destruct sy;
    rewrite ?SFcompare_pos, ?SFcompare_neg;
    cbn [SFcompare SFkey key_le];
    compare_cases;
    split; intros Hyp; try discriminate; try reflexivity; try lia;
    try (destruct Hyp; fail).
Qed.

Lemma SFltb_key (x y : spec_float) :
  SFltb x y = true
  <-> match SFkey x, SFkey y with
      | Some a, Some b => key_lt a b
      | _, _ => False
      end.
Proof.
  unfold SFltb.
  destruct x as [sx|sx| |sx mx ex], y as [sy|sy| |sy my ey];
    try destruct sx; try destruct sy;
    rewrite ?SFcompare_pos, ?SFcompare_neg;
    cbn [SFcompare SFkey key_lt];
    compare_cases;
    split; intros Hyp; try discriminate; try reflexivity; try lia;
    try (destruct Hyp; fail).
Qed.

Lemma is_nan_key (x : float) :
  is_nan x = false <-> SFkey (Prim2SF x) <> None.
Proof.
  unfold is_nan. rewrite eqb_spec. unfold SFeqb.
  destruct (Prim2SF x) as [s|s| |s m e]; try destruct s;
    rewrite ?SFcompare_pos, ?SFcompare_neg; cbn [SFcompare SFkey negb];
    rewrite ?Z.compare_refl; cbn [CompOpp negb];
    split; intros Hyp; try discriminate; try reflexivity; try congruence.
Qed.

Lemma leb_trans (a b c : float) :
  (a <=? b) = true -> (b <=? c) = true -> (a <=? c) = true.
Proof.
  rewrite !leb_spec, !SFleb_key.
  destruct (SFkey (Prim2SF a)) as [[[a1 a2] a3]|],
    (SFkey (Prim2SF b)) as [[[b1 b2] b3]|],
    (SFkey (Prim2SF c)) as [[[c1 c2] c3]|]; cbn [key_le]; try tauto.
  lia.
Qed.

Lemma ltb_leb (a b : float) : (a <? b) = true -> (a <=? b) = true.
Proof.
  rewrite ltb_spec, leb_spec, SFltb_key, SFleb_key.
  destruct (SFkey (Prim2SF a)) as [[[a1 a2] a3]|],
    (SFkey (Prim2SF b)) as [[[b1 b2] b3]|]; cbn [key_le key_lt]; try tauto.
  lia.
Qed.

Lemma leb_not_gt (a b : float) : (a <=? b) = true -> (b <? a) = false.
Proof.
  intros H. destruct (b <? a) eqn:L; [exfalso | reflexivity].
  revert H L. rewrite ltb_spec, leb_spec, SFltb_key, SFleb_key.
  destruct (SFkey (Prim2SF a)) as [[[a1 a2] a3]|],
    (SFkey (Prim2SF b)) as [[[b1 b2] b3]|]; cbn [key_le key_lt]; try tauto.
  lia.
Qed.

Lemma not_gt_leb (a b : float) :
  is_nan a = false -> is_nan b = false -> (b <? a) = false ->
  (a <=? b) = true.
Proof.
  rewrite !is_nan_key. intros Na Nb L.
  destruct (a <=? b) eqn:H; [reflexivity | exfalso].
  assert (L' : ~ (b <? a) = true) by congruence.
  assert (H' : ~ (a <=? b) = true) by congruence.
  revert L' H'. rewrite ltb_spec, leb_spec, SFltb_key, SFleb_key.
  destruct (SFkey (Prim2SF a)) as [[[a1 a2] a3]|],
    (SFkey (Prim2SF b)) as [[[b1 b2] b3]|]; cbn [key_le key_lt];
    try congruence.
  lia.
Qed.

Lemma leb_not_nan (a b : float) :
  (a <=? b) = true -> is_nan a = false /\ is_nan b = false.
Proof.
  rewrite !is_nan_key, leb_spec, SFleb_key.
  destruct (SFkey (Prim2SF a)), (SFkey (Prim2SF b)); try tauto.
  intros _. split; discriminate.
Qed.

Lemma ltb_not_nan (a b : float) :
  (a <? b) = true -> is_nan a = false /\ is_nan b = false.
Proof. intros H. apply leb_not_nan, ltb_leb, H. Qed.

(* ================================================================== *)
(** * The method normalizer on padded labels *)
(* ================================================================== *)

Lemma trimStart_padding (pre s : jsstring) :
  forallb isWhiteSpace pre = true -> trimStart (pre ++ s) = trimStart s.
Proof.
  induction pre as [|c pre IH]; simpl; [reflexivity |].
  intros H. apply andb_true_iff in H. destruct H as [Hc Hpre].
  rewrite Hc. auto.
Qed.

Lemma trimStart_all (s : jsstring) :
  forallb isWhiteSpace s = true -> trimStart s = [].
Proof.
  intros H. rewrite <- (app_nil_r s), trimStart_padding by assumption.
  reflexivity.
Qed.

(** What [trimStart] leaves is empty or starts with a character that is
    not white space, so appending to it does not change where it starts. *)
Lemma trimStart_app (s t : jsstring) :
  trimStart s <> [] -> trimStart (s ++ t) = trimStart s ++ t.
Proof.
  induction s as [|c s IH]; simpl; [congruence |].
  destruct (isWhiteSpace c); auto.
Qed.

Lemma trimStart_empty_all (s : jsstring) :
  trimStart s = [] -> forallb isWhiteSpace s = true.
Proof.
  induction s as [|c s IH]; simpl; [reflexivity |].
  destruct (isWhiteSpace c); [auto | discriminate].
Qed.

Lemma trimEnd_padding (s post : jsstring) :
  forallb isWhiteSpace post = true -> trimEnd (s ++ post) = trimEnd s.
Proof.
  intros H. unfold trimEnd. rewrite rev_app_distr, trimStart_padding.
  - reflexivity.
  - rewrite forallb_forall in *. intros c Hc. apply H, in_rev, Hc.
Qed.

Lemma trim_padding (pre s post : jsstring) :
  forallb isWhiteSpace pre = true -> forallb isWhiteSpace post = true ->
  trim (pre ++ s ++ post) = trim s.
Proof.
  intros Hpre Hpost. unfold trim. rewrite trimStart_padding by assumption.
  destruct (trimStart s) as [|c r] eqn:E.
  - rewrite trimStart_all; [reflexivity |].
    rewrite forallb_app, Hpost, (trimStart_empty_all _ E). reflexivity.
  - rewrite trimStart_app by congruence.
    rewrite E. apply trimEnd_padding, Hpost.
Qed.

(** The key depends on the label through [toLowerCase (trim label)]. *)
Lemma normalizeMethodKey_key (m : jsstring) :
  fst (normalizeMethodKey (Some m))
  = if includes navyAliases (toLowerCase (trim m)) then navy
    else deurenberg.
Proof.
  destruct m as [|c m]; [reflexivity |].
  unfold normalizeMethodKey.
  destruct (includes navyAliases _); [reflexivity |].
  destruct (includes deurenbergAliases _); reflexivity.
Qed.

(** X1.  White space around a label does not change the key that
    [normalizeMethodKey] returns. *)
Theorem normalizeMethodKey_ignores_padding (pre s post : jsstring) :
  forallb isWhiteSpace pre = true -> forallb isWhiteSpace post = true ->
  fst (normalizeMethodKey (Some (pre ++ s ++ post)))
  = fst (normalizeMethodKey (Some s)).
Proof.
  intros Hpre Hpost.
  rewrite !normalizeMethodKey_key, trim_padding by assumption.
  reflexivity.
Qed.










(* ================================================================== *)
(** * The energy figures in exact arithmetic *)
(* ================================================================== *)

Lemma zrange_In (n lo : Z) (len : nat) :
  (lo <= n < lo + Z.of_nat len)%Z -> In n (zrange lo len).
Proof.
  revert lo. induction len as [|len IH]; intros lo H; [lia |].
  cbn [zrange]. destruct (Z.eq_dec lo n) as [->|D]; [now left |].
  right. apply IH. lia.
Qed.

Lemma forallb_zrange (P : Z -> bool) (lo : Z) (len : nat) (n : Z) :
  forallb P (zrange lo len) = true ->
  (lo <= n < lo + Z.of_nat len)%Z -> P n = true.
Proof.
  intros A H. rewrite forallb_forall in A. apply A, zrange_In, H.
Qed.

Lemma forallb_zrange2 (P : Z -> Z -> bool) (lo1 : Z) (len1 : nat)
  (lo2 : Z) (len2 : nat) (x y : Z) :
  forallb (fun x => forallb (P x) (zrange lo2 len2)) (zrange lo1 len1)
  = true ->
  (lo1 <= x < lo1 + Z.of_nat len1)%Z ->
  (lo2 <= y < lo2 + Z.of_nat len2)%Z -> P x y = true.
Proof.
  intros A Hx Hy.
  apply (forallb_zrange (P x) lo2 len2 y); [| assumption].
  apply (forallb_zrange (fun x => forallb (P x) (zrange lo2 len2))
           lo1 len1 x A Hx).
Qed.

Lemma floatEq (a b : float) : PrimFloat.Leibniz.eqb a b = true -> a = b.
Proof. apply FloatAxioms.Leibniz.eqb_spec. Qed.

(** The sum [10 w + 6.25 h] is exact, in quarters. *)
Lemma bmr_stage_weight_height (k h : Z) :
  (300 <= k <= 3000)%Z -> (120 <= h <= 250)%Z ->
  10 * (Z2float k / 10) + 6.25 * Z2float h = Z2float (4 * k + 25 * h) / 4.
Proof.
  intros Hk Hh. apply floatEq.
  apply (forallb_zrange2
           (fun k h =>
              PrimFloat.Leibniz.eqb
                (10 * (Z2float k / 10) + 6.25 * Z2float h)
                (Z2float (4 * k + 25 * h) / 4))
           300 (Z.to_nat 2701) 120 (Z.to_nat 131) k h);
    [vm_compute; reflexivity | lia | lia].
Qed.

(** Taking [5 a] off a number of quarters is exact. *)
Lemma bmr_stage_age (s a : Z) :
  (4200 <= s <= 18250)%Z -> (16 <= a <= 99)%Z ->
  Z2float s / 4 - 5 * Z2float a = Z2float (s - 20 * a) / 4.
Proof.
  intros Hs Ha. apply floatEq.
  apply (forallb_zrange2
           (fun s a =>
              PrimFloat.Leibniz.eqb (Z2float s / 4 - 5 * Z2float a)
                (Z2float (s - 20 * a) / 4))
           4200 (Z.to_nat 14051) 16 (Z.to_nat 84) s a);
    [vm_compute; reflexivity | lia | lia].
Qed.

(** Adding the constant and rounding gives the exact rounded value. *)
Lemma bmr_stage_round (t : Z) :
  (2220 <= t <= 17930)%Z ->
  Math_round (Z2float t / 4 + 5) = Z2float ((t + 22) / 4)
  /\ Math_round (Z2float t / 4 - 161) = Z2float ((t - 642) / 4).
Proof.
  intros Ht.
  assert (A : forallb (fun t =>
                PrimFloat.Leibniz.eqb (Math_round (Z2float t / 4 + 5))
                  (Z2float ((t + 22) / 4))
                && PrimFloat.Leibniz.eqb (Math_round (Z2float t / 4 - 161))
                     (Z2float ((t - 642) / 4)))
                (zrange 2220 (Z.to_nat 15711)) = true)
    by (vm_compute; reflexivity).
  pose proof (forallb_zrange _ _ _ t A) as B. cbv beta in B.
  apply andb_true_iff in B; [| lia].
  destruct B as [B1 B2]. split; apply floatEq; assumption.
Qed.

Lemma calc_bmr_exact (data : UserData) (k h a : Z) :
  formValid data k h a ->
  calc_bmr data = Z2float (exactBmr (gender data) k h a).
Proof.
  intros (Hk & Hh & Ha & Ew & Eh & Ea).
  unfold calc_bmr, exactBmr, gender_is. rewrite Ew, Eh, Ea.
  rewrite bmr_stage_weight_height by assumption.
  rewrite bmr_stage_age by lia.
  destruct (bmr_stage_round (4 * k + 25 * h - 20 * a)) as [M F]; [lia |].
  destruct (gender data); [exact M | exact F].
Qed.

Lemma exactBmr_range (g : Gender) (k h a : Z) :
  (300 <= k <= 3000)%Z -> (120 <= h <= 250)%Z -> (16 <= a <= 99)%Z ->
  (394 <= exactBmr g k h a <= 4488)%Z.
Proof.
  intros Hk Hh Ha. unfold exactBmr.
  destruct g; split;
    first [apply Z.div_le_lower_bound | apply Z.lt_succ_r, Z.div_lt_upper_bound];
    lia.
Qed.

Lemma round_product_exact (percent : Z) (pal : float) (n : Z) :
  (percent = 140%Z /\ pal = 1.40) \/ (percent = 155%Z /\ pal = 1.55)
  \/ (percent = 170%Z /\ pal = 1.70) \/ (percent = 185%Z /\ pal = 1.85) ->
  (0 <= n <= 6000)%Z ->
  Math_round (Z2float n * pal) = Z2float (exactTdee percent n).
Proof.
  intros H Hn.
  assert (A : forallb (fun n =>
                PrimFloat.Leibniz.eqb (Math_round (Z2float n * 1.40))
                  (Z2float (exactTdee 140 n))
                && PrimFloat.Leibniz.eqb (Math_round (Z2float n * 1.55))
                     (Z2float (exactTdee 155 n))
                && PrimFloat.Leibniz.eqb (Math_round (Z2float n * 1.70))
                     (Z2float (exactTdee 170 n))
                && PrimFloat.Leibniz.eqb (Math_round (Z2float n * 1.85))
                     (Z2float (exactTdee 185 n)))
                (zrange 0 (Z.to_nat 6001)) = true)
    by (vm_compute; reflexivity).
  pose proof (forallb_zrange _ _ _ n A) as B. cbv beta in B.
  rewrite !andb_true_iff in B. destruct B as [[[B1 B2] B3] B4]; [lia |].
  destruct H as [[-> ->]|[[-> ->]|[[-> ->]|[-> ->]]]]; apply floatEq;
    assumption.
Qed.

Lemma calc_pal_percent (data : UserData) :
  (palPercent data = 140%Z /\ calc_pal data = 1.40)
  \/ (palPercent data = 155%Z /\ calc_pal data = 1.55)
  \/ (palPercent data = 170%Z /\ calc_pal data = 1.70)
  \/ (palPercent data = 185%Z /\ calc_pal data = 1.85).
Proof.
  unfold palPercent, calc_pal.
  destruct (trainingDays data <=? 1); [tauto |].
  destruct (trainingDays data <=? 3); [tauto |].
  destruct (trainingDays data <=? 5); tauto.
Qed.

Lemma calc_tdee_exact (data : UserData) (n : Z) :
  (0 <= n <= 6000)%Z -> calc_bmr data = Z2float n ->
  calc_tdee data = Z2float (exactTdee (palPercent data) n).
Proof.
  intros Hn E. unfold calc_tdee. rewrite E.
  apply round_product_exact; [apply calc_pal_percent | assumption].
Qed.

Lemma exactTdee_range (data : UserData) (n : Z) :
  (0 <= n <= 5400)%Z -> (0 <= exactTdee (palPercent data) n <= 10000)%Z.
Proof.
  intros Hn. unfold exactTdee.
  destruct (calc_pal_percent data) as [[-> _]|[[-> _]|[[-> _]|[-> _]]]];
    split;
    first [apply Z.div_le_lower_bound | apply Z.lt_succ_r, Z.div_lt_upper_bound];
    lia.
Qed.

Lemma targets_exact (n : Z) :
  (0 <= n <= 10000)%Z ->
  Z2float n - Math_round (Z2float n * 0.15) = Z2float (exactCutting n)
  /\ Z2float n + Math_round (Z2float n * 0.10) = Z2float (exactBulking n)
  /\ (Z2float (exactCutting n) <=? Z2float n) = true
  /\ (Z2float n <=? Z2float (exactBulking n)) = true.
Proof.
  intros Hn.
  assert (A : forallb (fun n =>
                PrimFloat.Leibniz.eqb
                  (Z2float n - Math_round (Z2float n * 0.15))
                  (Z2float (exactCutting n))
                && PrimFloat.Leibniz.eqb
                     (Z2float n + Math_round (Z2float n * 0.10))
                     (Z2float (exactBulking n))
                && (Z2float (exactCutting n) <=? Z2float n)
                && (Z2float n <=? Z2float (exactBulking n)))
                (zrange 0 (Z.to_nat 10001)) = true)
    by (vm_compute; reflexivity).
  pose proof (forallb_zrange _ _ _ n A) as B. cbv beta in B.
  rewrite !andb_true_iff in B. destruct B as [[[B1 B2] B3] B4]; [lia |].
  repeat split; try apply floatEq; assumption.
Qed.

(** X3.  Training on more days never lowers the activity multiplier. *)
Theorem pal_monotone (d1 d2 : UserData) :
  (trainingDays d1 <=? trainingDays d2) = true ->
  (calc_pal d1 <=? calc_pal d2) = true.
Proof.
  intros H. unfold calc_pal.
  assert (T : forall c, (trainingDays d2 <=? c) = true ->
                        (trainingDays d1 <=? c) = true)
    by (intros c; apply leb_trans; exact H).
  destruct (trainingDays d2 <=? 1) eqn:A1;
    [rewrite (T _ A1); reflexivity |].
  destruct (trainingDays d2 <=? 3) eqn:A3;
    [rewrite (T _ A3); destruct (trainingDays d1 <=? 1); reflexivity |].
  destruct (trainingDays d2 <=? 5) eqn:A5;
    [rewrite (T _ A5);
     destruct (trainingDays d1 <=? 1), (trainingDays d1 <=? 3); reflexivity |].
  destruct (trainingDays d1 <=? 1), (trainingDays d1 <=? 3),
    (trainingDays d1 <=? 5); reflexivity.
Qed.

Section EnergyFacts.

Variable log10_impl : float -> float.

(** X4.  The BMI, the BMR, the TDEE and the calorie targets do not
    depend on the circumferences: two profiles that agree on age,
    gender, height, weight and trainingDays get the same ones. *)
Theorem energy_ignores_measurements (d1 d2 : UserData) :
  age d1 = age d2 -> gender d1 = gender d2 -> height d1 = height d2 ->
  weight d1 = weight d2 -> trainingDays d1 = trainingDays d2 ->
  let r1 := calculateFitnessMetrics log10_impl d1 in
  let r2 := calculateFitnessMetrics log10_impl d2 in
  bmi r1 = bmi r2 /\ bmr r1 = bmr r2 /\ tdee r1 = tdee r2
  /\ targetCalories r1 = targetCalories r2.
Proof.
  intros Ea Eg Eh Ew Ed. cbn zeta.
  cbn [calculateFitnessMetrics bmi bmr tdee targetCalories].
  assert (B : calc_bmr d1 = calc_bmr d2)
    by (unfold calc_bmr, gender_is; rewrite Ea, Eg, Eh, Ew; reflexivity).
  assert (P : calc_pal d1 = calc_pal d2)
    by (unfold calc_pal; rewrite Ed; reflexivity).
  assert (T : calc_tdee d1 = calc_tdee d2)
    by (unfold calc_tdee; rewrite B, P; reflexivity).
  repeat split.
  - unfold calc_bmi, calc_heightM. rewrite Eh, Ew. reflexivity.
  - exact B.
  - exact T.
  - unfold calc_maintenance, calc_cutting, calc_bulking. rewrite T.
    reflexivity.
Qed.

(** X5.  For a profile as the form delivers it (age 16 to 99 and height
    120 to 250 in whole numbers, weight 30.0 to 300.0 in tenths) the BMR
    computed in binary64 is the Mifflin-St Jeor value of exact
    arithmetic, rounded half up. *)
Theorem bmr_exact (data : UserData) (k h a : Z) :
  formValid data k h a ->
  bmr (calculateFitnessMetrics log10_impl data)
  = Z2float (exactBmr (gender data) k h a).
Proof. apply calc_bmr_exact. Qed.

(** X6.  When the BMR is a whole number from 0 to 6000, the TDEE
    computed in binary64 is the exact product with the multiplier
    (1.40, 1.55, 1.70 or 1.85), rounded half up. *)
Theorem tdee_exact (data : UserData) (n : Z) :
  (0 <= n <= 6000)%Z ->
  bmr (calculateFitnessMetrics log10_impl data) = Z2float n ->
  tdee (calculateFitnessMetrics log10_impl data)
  = Z2float (exactTdee (palPercent data) n).
Proof. apply calc_tdee_exact. Qed.

(** X7.  When the TDEE is a whole number from 0 to 10000, the cutting
    and bulking targets computed in binary64 are those of exact
    arithmetic, [n - round (0.15 n)] and [n + round (0.10 n)], and
    cutting <= maintenance <= bulking. *)
Theorem targetCalories_exact (data : UserData) (n : Z) :
  (0 <= n <= 10000)%Z ->
  tdee (calculateFitnessMetrics log10_impl data) = Z2float n ->
  let t := targetCalories (calculateFitnessMetrics log10_impl data) in
  cutting t = Z2float (exactCutting n)
  /\ bulking t = Z2float (exactBulking n)
  /\ (cutting t <=? maintenance t) = true
  /\ (maintenance t <=? bulking t) = true.
Proof.
  intros Hn E. cbn zeta.
  cbn [calculateFitnessMetrics tdee targetCalories maintenance cutting
       bulking] in *.
  unfold calc_maintenance, calc_cutting, calc_bulking. rewrite E.
  destruct (targets_exact n Hn) as (C & B & O1 & O2).
  rewrite C, B. repeat split; assumption.
Qed.

(** X8.  For a profile as the form delivers it, the whole chain from
    the inputs to the calorie targets agrees with exact arithmetic. *)
Theorem energy_pipeline_exact (data : UserData) (k h a : Z) :
  formValid data k h a ->
  let r := calculateFitnessMetrics log10_impl data in
  let T := exactTdee (palPercent data) (exactBmr (gender data) k h a) in
  tdee r = Z2float T
  /\ maintenance (targetCalories r) = Z2float T
  /\ cutting (targetCalories r) = Z2float (exactCutting T)
  /\ bulking (targetCalories r) = Z2float (exactBulking T)
  /\ (cutting (targetCalories r) <=? maintenance (targetCalories r)) = true
  /\ (maintenance (targetCalories r) <=? bulking (targetCalories r)) = true.
Proof.
  intros V. cbn zeta.
  cbn [calculateFitnessMetrics tdee targetCalories maintenance cutting
       bulking].
  pose proof (calc_bmr_exact data k h a V) as B.
  destruct V as (Hk & Hh & Ha & _).
  pose proof (exactBmr_range (gender data) k h a Hk Hh Ha) as R.
  assert (T : calc_tdee data
              = Z2float (exactTdee (palPercent data)
                           (exactBmr (gender data) k h a)))
    by (apply calc_tdee_exact; [lia | exact B]).
  pose proof (exactTdee_range data (exactBmr (gender data) k h a)) as RT.
  destruct (targets_exact
              (exactTdee (palPercent data) (exactBmr (gender data) k h a)))
    as (C & Bu & O1 & O2); [lia |].
  unfold calc_maintenance, calc_cutting, calc_bulking. rewrite T, C, Bu.
  repeat split; assumption.
Qed.

End EnergyFacts.

(* ================================================================== *)
(** * The energy figures grow with the inputs *)
(* ================================================================== *)






Section EnergyOrder.

Variable log10_impl : float -> float.


End EnergyOrder.

(* ================================================================== *)
(** * The form: proofs *)
(* ================================================================== *)

Lemma is_zero_key (x : float) :
  is_zero x = true <-> SFkey (Prim2SF x) = Some (0, 0, 0)%Z.
Proof.
  unfold is_zero. rewrite eqb_spec.
  change (Prim2SF zero) with (S754_zero false). unfold SFeqb.
  destruct (Prim2SF x) as [s|s| |s m e]; try destruct s;
    cbn [SFcompare SFkey]; split; intros Hyp; try discriminate;
    try reflexivity.
Qed.

(** A number that is neither negative nor NaN and is truthy is positive. *)
Lemma truthy_nonneg_pos (x : float) :
  (0 <=? x) = true -> truthy x = true -> (0 <? x) = true.
Proof.
  unfold truthy. intros L T. apply negb_true_iff, orb_false_iff in T.
  destruct T as [Z _].
  assert (Z' : ~ is_zero x = true) by congruence.
  revert L Z'. rewrite leb_spec, ltb_spec, SFleb_key, SFltb_key, is_zero_key.
  change (Prim2SF 0) with (S754_zero false). cbn [SFkey].
  destruct (SFkey (Prim2SF x)) as [[[a1 a2] a3]|]; cbn [key_le key_lt];
    [| tauto].
  intros L Z'.
  destruct (Z.eq_dec a1 0) as [E1|N1]; [| lia].
  destruct (Z.eq_dec a2 0) as [E2|N2]; [| lia].
  destruct (Z.eq_dec a3 0) as [E3|N3]; [| lia].
  subst. destruct Z'. reflexivity.
Qed.

(** The test of a range by two strict comparisons, as [validateField]
    writes it. *)
Lemma outside_range (lo hi x : float) :
  is_nan x = false -> is_nan lo = false -> is_nan hi = false ->
  (x <? lo) || (hi <? x) = negb ((lo <=? x) && (x <=? hi)).
Proof.
  intros Nx Nlo Nhi.
  destruct (x <? lo) eqn:A.
  - assert ((lo <=? x) = false).
    { destruct (lo <=? x) eqn:B; [| reflexivity].
      apply leb_not_gt in B. congruence. }
    rewrite H. reflexivity.
  - rewrite (not_gt_leb lo x Nlo Nx A). cbn [orb andb].
    destruct (hi <? x) eqn:B.
    + destruct (x <=? hi) eqn:C; [| reflexivity].
      apply leb_not_gt in C. congruence.
    + rewrite (not_gt_leb x hi Nx Nhi B). reflexivity.
Qed.

Lemma messages_nonEmpty :
  nonEmpty msgNotANumber = true /\ nonEmpty msgAge = true
  /\ nonEmpty msgHeight = true /\ nonEmpty msgWeight = true
  /\ nonEmpty msgNegative = true.
Proof. repeat split. Qed.

Lemma nonEmpty_nil (s : jsstring) : nonEmpty s = false <-> s = [].
Proof. destruct s; split; intros H; congruence || reflexivity || discriminate. Qed.

Lemma nonEmpty_not_nil (s : jsstring) : nonEmpty s = true -> s <> [].
Proof. destruct s; [discriminate | discriminate]. Qed.

Section ValidationFacts.

Variable parseFloat : jsstring -> float.

Lemma validate_age (value : jsstring) :
  validateField parseFloat (lit "age") value = []
  <-> (16 <=? parseFloat value) && (parseFloat value <=? 99) = true.
Proof.
  unfold validateField.
  change (includes [lit "neck"; lit "waist"; lit "hip"] (lit "age"))
    with false.
  change (str_eqb (lit "age") (lit "age")) with true. cbn [andb].
  destruct (is_nan (parseFloat value)) eqn:N.
  - split; [discriminate |].
    intros H. apply andb_true_iff in H. destruct H as [H _].
    apply leb_not_nan in H. destruct H. congruence.
  - rewrite (outside_range 16 99) by (assumption || reflexivity).
    destruct ((16 <=? parseFloat value) && (parseFloat value <=? 99));
      cbn [negb]; split; intros H; try reflexivity; discriminate.
Qed.

Lemma validate_height (value : jsstring) :
  validateField parseFloat (lit "height") value = []
  <-> (120 <=? parseFloat value) && (parseFloat value <=? 250) = true.
Proof.
  unfold validateField.
  change (includes [lit "neck"; lit "waist"; lit "hip"] (lit "height"))
    with false.
  change (str_eqb (lit "height") (lit "age")) with false.
  change (str_eqb (lit "height") (lit "height")) with true. cbn [andb].
  destruct (is_nan (parseFloat value)) eqn:N.
  - split; [discriminate |].
    intros H. apply andb_true_iff in H. destruct H as [H _].
    apply leb_not_nan in H. destruct H. congruence.
  - rewrite (outside_range 120 250) by (assumption || reflexivity).
    destruct ((120 <=? parseFloat value) && (parseFloat value <=? 250));
      cbn [negb]; split; intros H; try reflexivity; discriminate.
Qed.

Lemma validate_weight (value : jsstring) :
  validateField parseFloat (lit "weight") value = []
  <-> (30 <=? parseFloat value) && (parseFloat value <=? 300) = true.
Proof.
  unfold validateField.
  change (includes [lit "neck"; lit "waist"; lit "hip"] (lit "weight"))
    with false.
  change (str_eqb (lit "weight") (lit "age")) with false.
  change (str_eqb (lit "weight") (lit "height")) with false.
  change (str_eqb (lit "weight") (lit "weight")) with true. cbn [andb].
  destruct (is_nan (parseFloat value)) eqn:N.
  - split; [discriminate |].
    intros H. apply andb_true_iff in H. destruct H as [H _].
    apply leb_not_nan in H. destruct H. congruence.
  - rewrite (outside_range 30 300) by (assumption || reflexivity).
    destruct ((30 <=? parseFloat value) && (parseFloat value <=? 300));
      cbn [negb]; split; intros H; try reflexivity; discriminate.
Qed.

Lemma validate_measure (name value : jsstring) :
  In name [lit "neck"; lit "waist"; lit "hip"] ->
  validateField parseFloat name value = []
  <-> value = [] \/ (0 <=? parseFloat value) = true.
Proof.
  intros Hn.
  assert (E : validateField parseFloat name value
              = if negb (nonEmpty value) then []
                else if is_nan (parseFloat value) then msgNotANumber
                else if parseFloat value <? 0 then msgNegative else []).
  { destruct Hn as [<-|[<-|[<-|[]]]]; reflexivity. }
  rewrite E. clear E.
  destruct value as [|c value]; [cbn; tauto |]. cbn [nonEmpty negb].
  destruct (is_nan (parseFloat (c :: value))) eqn:N.
  - split; [discriminate |]. intros [H|H]; [discriminate |].
    apply leb_not_nan in H. destruct H. congruence.
  - destruct (parseFloat (c :: value) <? 0) eqn:L.
    + split; [discriminate |]. intros [H|H]; [discriminate |].
      apply leb_not_gt in H. congruence.
    + split; [| reflexivity]. intros _. right.
      apply not_gt_leb; [reflexivity | assumption | assumption].
Qed.

(** X9.  [validateField] accepts an age, a height or a weight exactly
    when [parseFloat] of the text lies in [[16, 99]], [[120, 250]] or
    [[30, 300]], and a neck, waist or hip exactly when the text is empty
    or [parseFloat] of it is at least 0; a text that does not parse is
    refused. *)
Theorem validateField_accepts (value : jsstring) :
  (validateField parseFloat (lit "age") value = []
   <-> (16 <=? parseFloat value) && (parseFloat value <=? 99) = true)
  /\ (validateField parseFloat (lit "height") value = []
      <-> (120 <=? parseFloat value) && (parseFloat value <=? 250) = true)
  /\ (validateField parseFloat (lit "weight") value = []
      <-> (30 <=? parseFloat value) && (parseFloat value <=? 300) = true)
  /\ (forall name, In name [lit "neck"; lit "waist"; lit "hip"] ->
      (validateField parseFloat name value = []
       <-> value = [] \/ (0 <=? parseFloat value) = true)).
Proof.
  split; [apply validate_age |].
  split; [apply validate_height |].
  split; [apply validate_weight |].
  intros name. apply validate_measure.
Qed.

Lemma noErrors_spec (form : FormState) :
  noErrors (currentErrors parseFloat form) = true
  <-> validateField parseFloat (lit "age") (form_age form) = []
      /\ validateField parseFloat (lit "height") (form_height form) = []
      /\ validateField parseFloat (lit "weight") (form_weight form) = []
      /\ validateField parseFloat (lit "neck") (form_neck form) = []
      /\ validateField parseFloat (lit "waist") (form_waist form) = []
      /\ validateField parseFloat (lit "hip") (form_hip form) = [].
Proof.
  unfold noErrors, currentErrors.
  cbn [forallb err_age err_height err_weight err_neck err_waist err_hip].
  rewrite !andb_true_iff, !negb_true_iff, !nonEmpty_nil. tauto.
Qed.

Lemma canSubmit_spec (form : FormState) :
  canSubmit parseFloat form = true
  <-> noErrors (currentErrors parseFloat form) = true
      /\ form_age form <> [] /\ form_height form <> []
      /\ form_weight form <> [].
Proof.
  unfold canSubmit. rewrite !andb_true_iff.
  assert (N : forall s, nonEmpty s = true <-> s <> []).
  { intros [|c s]; cbn; split; congruence. }
  rewrite !N. tauto.
Qed.

End ValidationFacts.

Section SubmitFacts.

Variable parseFloat : jsstring -> float.
Variable parseInt : jsstring -> float.

(** X10.  When the form calls [onSubmit], the weight it passes lies in
    [[30, 300]], every circumference it passes is at least 0, a hip is
    passed only for a female, and the age and the height were read by
    [parseInt] from texts whose [parseFloat] lies in [[16, 99]] and
    [[120, 250]]. *)
Theorem submitted_profile (form : FormState) (data : UserData) :
  form_handleSubmit parseFloat parseInt form = inl data ->
  data = submittedData parseFloat parseInt form
  /\ (30 <=? weight data) && (weight data <=? 300) = true
  /\ (forall x, neck data = Some x -> (0 <=? x) = true)
  /\ (forall x, waist data = Some x -> (0 <=? x) = true)
  /\ (forall x, hip data = Some x ->
      (0 <=? x) = true /\ gender data = Female)
  /\ age data = parseInt (form_age form)
  /\ (16 <=? parseFloat (form_age form))
     && (parseFloat (form_age form) <=? 99) = true
  /\ height data = parseInt (form_height form)
  /\ (120 <=? parseFloat (form_height form))
     && (parseFloat (form_height form) <=? 250) = true.
Proof.
  unfold form_handleSubmit.
  destruct (canSubmit parseFloat form) eqn:C; [| discriminate].
  intros E. injection E as <-.
  apply canSubmit_spec in C. destruct C as (Ev & _).
  apply noErrors_spec in Ev.
  destruct Ev as (Va & Vh & Vw & Vn & Vwa & Vhi).
  apply validate_age in Va. apply validate_height in Vh.
  apply validate_weight in Vw.
  apply (proj1 (validate_measure parseFloat (lit "neck") _
                  (or_introl eq_refl))) in Vn.
  apply (proj1 (validate_measure parseFloat (lit "waist") _
                  (or_intror (or_introl eq_refl)))) in Vwa.
  apply (proj1 (validate_measure parseFloat (lit "hip") _
                  (or_intror (or_intror (or_introl eq_refl))))) in Vhi.
  cbn [submittedData age height weight neck waist hip gender].
  split; [reflexivity |]. split; [exact Vw |].
  split; [| split; [| split]].
  - intros x. destruct (form_neck form) as [|c s]; cbn [nonEmpty];
      [discriminate |].
    intros E. injection E as <-. destruct Vn as [Vn|Vn];
      [discriminate | exact Vn].
  - intros x. destruct (form_waist form) as [|c s]; cbn [nonEmpty];
      [discriminate |].
    intros E. injection E as <-. destruct Vwa as [V|V];
      [discriminate | exact V].
  - intros x. destruct (form_hip form) as [|c s]; cbn [nonEmpty andb];
      [discriminate |].
    destruct (form_gender form); cbn [isFemale]; [discriminate |].
    intros E. injection E as <-. destruct Vhi as [V|V];
      [discriminate | split; [exact V | reflexivity]].
  - repeat split; assumption.
Qed.

End SubmitFacts.

(* ================================================================== *)
(** * Signs of binary64 results *)
(* ================================================================== *)

Lemma shr_1_nonneg (mrs : shr_record) :
  (0 <= shr_m mrs)%Z -> (0 <= shr_m (shr_1 mrs))%Z.
Proof.
  destruct mrs as [m r s]. cbn [shr_m]. intros H.
  destruct m as [|p|p]; [| destruct p | lia]; cbn; lia.
Qed.

Lemma iter_pos_invariant {A : Type} (f : A -> A) (P : A -> Prop) :
  (forall x, P x -> P (f x)) ->
  forall n x, P x -> P (iter_pos f n x).
Proof.
  intros Hf. induction n as [n IH|n IH|]; intros x Hx; cbn [iter_pos]; auto.
Qed.

Lemma shr_nonneg (mrs : shr_record) (e n : Z) :
  (0 <= shr_m mrs)%Z -> (0 <= shr_m (fst (shr mrs e n)))%Z.
Proof.
  intros H. unfold shr. destruct n as [|p|p]; cbn [fst]; try assumption.
  apply (iter_pos_invariant shr_1 (fun r => 0 <= shr_m r)%Z);
    [apply shr_1_nonneg | assumption].
Qed.

Lemma shr_record_of_loc_m (m : Z) (l : location) :
  shr_m (shr_record_of_loc m l) = m.
Proof. destruct l as [|[| |]]; reflexivity. Qed.

Lemma shr_fexp_nonneg (p em m e : Z) (l : location) :
  (0 <= m)%Z -> (0 <= shr_m (fst (shr_fexp p em m e l)))%Z.
Proof.
  intros H. unfold shr_fexp. apply shr_nonneg.
  rewrite shr_record_of_loc_m. exact H.
Qed.

Lemma round_nearest_even_nonneg (m : Z) (l : location) :
  (0 <= m)%Z -> (0 <= round_nearest_even m l)%Z.
Proof.
  intros H. unfold round_nearest_even.
  destruct l as [|[| |]]; try destruct (Z.even m); lia.
Qed.

(** Rounding a non-negative mantissa gives a zero, a finite number or an
    infinity of the requested sign, never NaN. *)
Lemma binary_round_aux_signed (p em : Z) (sx : bool) (mx ex : Z)
  (lx : location) :
  (0 <= mx)%Z -> SFsigned sx (binary_round_aux p em sx mx ex lx).
Proof.
  intros H. unfold binary_round_aux.
  pose proof (shr_fexp_nonneg p em mx ex lx H) as H1.
  destruct (shr_fexp p em mx ex lx) as [mrs' e']. cbn [fst] in H1.
  pose proof (shr_fexp_nonneg p em
                (round_nearest_even (shr_m mrs') (loc_of_shr_record mrs'))
                e' loc_Exact
                (round_nearest_even_nonneg _ _ H1)) as H2.
  destruct (shr_fexp p em _ e' loc_Exact) as [mrs'' e'']. cbn [fst] in H2.
  destruct (shr_m mrs'') as [|m|m]; [reflexivity | | lia].
  destruct (e'' <=? em - p)%Z; reflexivity.
Qed.

Lemma binary_round_signed (p em : Z) (sx : bool) (mx : positive) (ex : Z) :
  SFsigned sx (binary_round p em sx mx ex).
Proof.
  unfold binary_round.
  destruct (shl_align mx ex _) as [mz ez].
  apply binary_round_aux_signed. lia.
Qed.

Lemma binary_normalize_signed (p em m e : Z) (szero : bool) :
  SFsigned (match m with Z0 => szero | Zpos _ => false | Zneg _ => true end)
    (binary_normalize p em m e szero).
Proof.
  destruct m; cbn [binary_normalize]; [reflexivity | |];
    apply binary_round_signed.
Qed.

Lemma SFnonneg_signed (x : spec_float) : SFsigned false x -> SFnonneg x.
Proof. destruct x as [s|s| |s m e]; cbn; intros H; subst; auto. Qed.

Lemma SFsigned_not_nan (s : bool) (x : spec_float) :
  SFsigned s x -> x <> S754_nan.
Proof. destruct x; cbn; intros H; [discriminate | discriminate | destruct H | discriminate]. Qed.

(** [0 <= x] on floats, on their representation. *)
Lemma nonneg_spec (x : float) : (0 <=? x) = true <-> SFnonneg (Prim2SF x).
Proof.
  rewrite leb_spec. change (Prim2SF 0) with (S754_zero false).
  destruct (Prim2SF x) as [s|s| |s m e]; try destruct s; cbn;
    split; intros H; try discriminate; try reflexivity; try exact I;
    try destruct H.
Qed.

Lemma is_nan_spec (x : float) : is_nan x = false <-> Prim2SF x <> S754_nan.
Proof.
  rewrite is_nan_key.
  destruct (Prim2SF x) as [s|s| |s m e]; try destruct s; cbn;
    split; intros H; congruence.
Qed.

(** The sum of two numbers that are not negative is not negative. *)
Lemma add_nonneg (a b : float) :
  (0 <=? a) = true -> (0 <=? b) = true -> (0 <=? a + b) = true.
Proof.
  rewrite !nonneg_spec, add_spec. unfold SF64add, SFadd.
  destruct (Prim2SF a) as [sa|sa| |sa ma ea]; try destruct sa;
    destruct (Prim2SF b) as [sb|sb| |sb mb eb]; try destruct sb;
    cbn [SFnonneg]; try tauto.
  intros _ _. cbn [cond_Zopp]. apply SFnonneg_signed.
  match goal with
  | |- SFsigned false (binary_normalize ?p ?em ?m ?e ?z) =>
      pose proof (binary_normalize_signed p em m e z) as S;
      destruct m eqn:M; [exact S | exact S | lia]
  end.
Qed.

Lemma mul_signed (p em : Z) (sa sb : bool) (x y : spec_float) :
  SFsigned sa x -> SFsigned sb y -> SFfinite x \/ SFfinite y ->
  SFsigned (xorb sa sb) (SFmul p em x y).
Proof.
  destruct x as [s1|s1| |s1 m1 e1]; destruct y as [s2|s2| |s2 m2 e2];
    cbn [SFsigned SFfinite SFmul]; intros A B F; subst;
    try reflexivity; try tauto.
  apply binary_round_aux_signed. lia.
Qed.

Lemma mul_self_signed (p em : Z) (x : spec_float) :
  x <> S754_nan -> SFsigned false (SFmul p em x x).
Proof.
  destruct x as [s|s| |s m e]; cbn [SFsigned SFmul]; intros N;
    try (destruct s; reflexivity); try congruence.
  replace false with (xorb s s) by (destruct s; reflexivity).
  apply binary_round_aux_signed. lia.
Qed.

Lemma div_core_nonneg (p em : Z) (m1 : positive) (e1 : Z) (m2 : positive)
  (e2 : Z) :
  (0 <= fst (fst (SFdiv_core_binary p em (Zpos m1) e1 (Zpos m2) e2)))%Z.
Proof.
  unfold SFdiv_core_binary.
  set (s := (e1 - e2 - _)%Z).
  set (m' := match s with Zpos _ => Z.shiftl (Zpos m1) s | Z0 => Zpos m1
             | Zneg _ => 0%Z end).
  assert (M : (0 <= m')%Z).
  { unfold m'. destruct s; try lia. apply Z.shiftl_nonneg. lia. }
  pose proof (Z_div_mod m' (Zpos m2) eq_refl) as D.
  destruct (Z.div_eucl m' (Zpos m2)) as [q r]. cbn [fst].
  destruct D as [E R]. nia.
Qed.

Lemma div_signed (p em : Z) (sa sb : bool) (x y : spec_float) :
  SFsigned sa x -> SFsigned sb y -> SFfinite x \/ SFfinite y ->
  SFsigned (xorb sa sb) (SFdiv p em x y).
Proof.
  destruct x as [s1|s1| |s1 m1 e1]; destruct y as [s2|s2| |s2 m2 e2];
    cbn [SFsigned SFfinite SFdiv]; intros A B F; subst;
    try reflexivity; try tauto.
  pose proof (div_core_nonneg p em m1 e1 m2 e2) as Q.
  destruct (SFdiv_core_binary p em (Zpos m1) e1 (Zpos m2) e2) as [[mz ez] lz].
  cbn [fst] in Q. apply binary_round_aux_signed. exact Q.
Qed.

Lemma sub_ordinary_not_nan (p em : Z) (x y : spec_float) :
  x <> S754_nan -> SFordinary y -> SFsub p em x y <> S754_nan.
Proof.
  destruct x as [s1|s1| |s1 m1 e1]; destruct y as [s2|s2| |s2 m2 e2];
    cbn [SFordinary SFsub]; intros N F; try tauto; try discriminate;
    try (destruct s1, s2; discriminate).
  eapply SFsigned_not_nan. apply binary_normalize_signed.
Qed.

(** The float of an integer that is not negative has sign bit 0. *)
Lemma Z2float_signed (n : Z) :
  (0 <= n)%Z -> SFsigned false (Prim2SF (Z2float n)).
Proof.
  intros H. destruct n as [|q|q]; [reflexivity | | lia].
  cbn [Z2float]. rewrite of_uint63_spec.
  pose proof (Uint63.to_Z_bounded (Uint63.of_Z (Z.pos q))) as B.
  pose proof (binary_normalize_signed prec emax
                (Uint63.to_Z (Uint63.of_Z (Z.pos q))) 0 false) as S.
  destruct (Uint63.to_Z (Uint63.of_Z (Z.pos q))); [exact S | exact S | lia].
Qed.

Lemma tenths_nonneg (m : positive) (e : Z) : (0 <= tenths m e)%Z.
Proof.
  unfold tenths. destruct (0 <=? e)%Z eqn:E.
  - apply Z.leb_le in E. pose proof (Z.pow_nonneg 2 e). nia.
  - apply Z.div_pos.
    + pose proof (Z.pow_nonneg 2 (- e)). lia.
    + apply Z.pow_pos_nonneg; lia.
Qed.

(** Rounding to one decimal keeps a sign bit of 0. *)
Lemma toFixed1_signed (x : float) :
  SFsigned false (Prim2SF x) -> SFsigned false (Prim2SF (parseFloat_toFixed1 x)).
Proof.
  unfold parseFloat_toFixed1. intros H.
  destruct (Prim2SF x) as [s|s| |s m e] eqn:E.
  - reflexivity.
  - rewrite E. exact H.
  - destruct H.
  - cbn [SFsigned] in H. subst s.
    destruct (562949953421312 <=? abs x); [rewrite E; reflexivity |].
    cbv beta zeta iota. rewrite div_spec.
    apply (div_signed prec emax false false).
    + apply Z2float_signed, tenths_nonneg.
    + reflexivity.
    + right. exact I.
Qed.

(** A product of a positive constant and a number that is not negative
    is not negative. *)
Lemma mul_nonneg (c x : float) :
  (0 <? c) = true -> (c <? infinity) = true -> (0 <=? x) = true ->
  (0 <=? c * x) = true.
Proof.
  rewrite !nonneg_spec, !ltb_spec, mul_spec.
  change (Prim2SF 0) with (S754_zero false).
  change (Prim2SF infinity) with (S754_infinity false).
  unfold SF64mul.
  destruct (Prim2SF c) as [s1|s1| |s1 m1 e1]; try destruct s1;
    try discriminate; intros _ _.
  destruct (Prim2SF x) as [s2|s2| |s2 m2 e2]; try destruct s2;
    cbn [SFnonneg SFmul xorb]; try tauto.
  intros _. apply SFnonneg_signed, binary_round_aux_signed. lia.
Qed.

(** A positive finite float, on its representation. *)
Lemma positive_finite_spec (x : float) :
  (0 <? x) = true -> (x <? infinity) = true ->
  SFsigned false (Prim2SF x) /\ SFfinite (Prim2SF x).
Proof.
  rewrite !ltb_spec.
  change (Prim2SF 0) with (S754_zero false).
  change (Prim2SF infinity) with (S754_infinity false).
  destruct (Prim2SF x) as [s|s| |s m e]; try destruct s; cbn;
    try discriminate; auto.
Qed.

Lemma signed_nonneg (x : float) :
  SFsigned false (Prim2SF x) -> (0 <=? x) = true.
Proof. intros H. apply nonneg_spec, SFnonneg_signed, H. Qed.

Lemma sub_constant_not_nan (x c : float) :
  is_nan x = false -> SFordinary (Prim2SF c) -> is_nan (x - c) = false.
Proof.
  rewrite !is_nan_spec, sub_spec. intros N F.
  apply sub_ordinary_not_nan; assumption.
Qed.

Section DeurenbergFacts.

Variable log10_impl : float -> float.

(** The body mass index has sign bit 0 and is not NaN when the weight is
    positive and finite and the height is a number. *)
Lemma bmi_signed (data : UserData) :
  (0 <? weight data) = true -> (weight data <? infinity) = true ->
  is_nan (height data) = false ->
  SFsigned false (Prim2SF (calc_bmi data)).
Proof.
  intros W1 W2 H. unfold calc_bmi, calc_heightM.
  apply toFixed1_signed. rewrite div_spec.
  destruct (positive_finite_spec _ W1 W2) as [Ws Wf].
  apply (div_signed prec emax false false); [exact Ws | | left; exact Wf].
  rewrite mul_spec. apply mul_self_signed.
  rewrite div_spec. apply is_nan_spec in H.
  intros N.
  assert (S : exists s, SFsigned s (Prim2SF (height data))).
  { destruct (Prim2SF (height data)) as [s|s| |s m e];
      [exists s | exists s | congruence | exists s]; reflexivity. }
  destruct S as [s S].
  pose proof (div_signed prec emax s false _ (Prim2SF 100) S eq_refl
                (or_intror I)) as D.
  unfold SF64div in N. rewrite N in D. exact D.
Qed.

(** The Deurenberg estimate is a number when the weight is positive and
    finite, the height is a number and the age is not negative. *)
Lemma deurenberg_not_nan (data : UserData) :
  calc_bodyFatMethod data = deurenberg ->
  (0 <? weight data) = true -> (weight data <? infinity) = true ->
  is_nan (height data) = false ->
  (0 <=? age data) = true ->
  is_nan (calc_bodyFat log10_impl data) = false.
Proof.
  intros M W1 W2 H A. unfold calc_bodyFat.
  unfold calc_bodyFatMethod in M.
  destruct (calc_useNavy data && calc_navyIsValid data); [discriminate |].
  cbn zeta.
  assert (S : (0 <=? 1.20 * calc_bmi data + 0.23 * age data) = true).
  { apply add_nonneg.
    - apply mul_nonneg; [reflexivity | reflexivity |].
      apply signed_nonneg, bmi_signed; assumption.
    - apply mul_nonneg; [reflexivity | reflexivity | assumption]. }
  apply sub_constant_not_nan; [| exact I].
  apply sub_constant_not_nan.
  - apply (proj2 (leb_not_nan _ _ S)).
  - destruct (gender_is Male data); exact I.
Qed.

End DeurenbergFacts.

(* ================================================================== *)
(** * A difference of binary64 values does not vanish *)
(* ================================================================== *)

Lemma shr_1_lower (c : Z) (mrs : shr_record) :
  (2 * c <= shr_m mrs)%Z -> (c <= shr_m (shr_1 mrs))%Z.
Proof.
  destruct mrs as [m r s]. cbn [shr_m]. intros H.
  destruct m as [|p|p]; try destruct p; cbn; lia.
Qed.

Lemma iter_shr_1_lower (n : positive) :
  forall (c : Z) (mrs : shr_record),
    (c * 2 ^ Z.pos n <= shr_m mrs)%Z ->
    (c <= shr_m (iter_pos shr_1 n mrs))%Z.
Proof.
  induction n as [n IH|n IH|]; intros c mrs H; cbn [iter_pos].
  - apply IH, IH, shr_1_lower.
    rewrite (Pos2Z.inj_xI n), Z.pow_add_r, Z.pow_mul_r in H by lia.
    change (2 ^ 2)%Z with 4%Z in H. change (2 ^ 1)%Z with 2%Z in H.
    replace (4 ^ Z.pos n)%Z with (2 ^ Z.pos n * 2 ^ Z.pos n)%Z in H
      by (rewrite <- Z.pow_mul_l; reflexivity).
    lia.
  - apply IH, IH.
    rewrite (Pos2Z.inj_xO n), Z.pow_mul_r in H by lia.
    change (2 ^ 2)%Z with 4%Z in H.
    replace (4 ^ Z.pos n)%Z with (2 ^ Z.pos n * 2 ^ Z.pos n)%Z in H
      by (rewrite <- Z.pow_mul_l; reflexivity).
    lia.
  - apply shr_1_lower. change (2 ^ 1)%Z with 2%Z in H. lia.
Qed.

Lemma digits2_pos_lower (p : positive) :
  (2 ^ Z.pos (digits2_pos p) <= 2 * Z.pos p)%Z.
Proof.
  induction p as [p IH|p IH|]; cbn [digits2_pos];
    rewrite ?Pos2Z.inj_succ, ?Z.pow_succ_r by lia; lia.
Qed.

(** Shifting a positive mantissa to its place leaves it positive, and
    the exponent stays in range. *)
Lemma shr_fexp_pos (m e : Z) (l : location) :
  (0 < m)%Z -> (-1074 <= e)%Z ->
  (0 < shr_m (fst (shr_fexp prec emax m e l)))%Z
  /\ (-1074 <= snd (shr_fexp prec emax m e l))%Z.
Proof.
  intros Hm He. unfold shr_fexp, shr.
  destruct m as [|p|p]; try lia. cbn [Zdigits2].
  cbv [fexp SpecFloat.emin prec emax].
  pose proof (digits2_pos_lower p) as D.
  set (d := Z.pos (digits2_pos p)) in *.
  destruct (Z.max (d + e - 53) (3 - 1024 - 53) - e)%Z as [|n|n] eqn:N;
    cbn [fst snd]; rewrite ?shr_record_of_loc_m; try lia.
  split; [| lia].
  enough (1 <= shr_m (iter_pos shr_1 n (shr_record_of_loc (Z.pos p) l)))%Z
    by lia.
  apply (iter_shr_1_lower n 1).
  rewrite shr_record_of_loc_m.
  assert (E : (d = Z.pos n + 53)%Z) by lia.
  rewrite E, Z.pow_add_r in D by lia.
  assert (P : (0 < 2 ^ Z.pos n)%Z) by (apply Z.pow_pos_nonneg; lia).
  change (2 ^ 53)%Z with 9007199254740992%Z in D. lia.
Qed.

Lemma round_nearest_even_ge (m : Z) (l : location) :
  (m <= round_nearest_even m l)%Z.
Proof.
  unfold round_nearest_even.
  destruct l as [|[| |]]; try destruct (Z.even m); lia.
Qed.

(** Rounding a positive mantissa with an exponent in range does not give
    zero: the result is a finite number or an infinity of the sign
    requested. *)
Lemma binary_round_aux_nonzero (sx : bool) (mx ex : Z) (lx : location) :
  (0 < mx)%Z -> (-1074 <= ex)%Z ->
  match binary_round_aux prec emax sx mx ex lx with
  | S754_finite s _ _ | S754_infinity s => s = sx
  | _ => False
  end.
Proof.
  intros Hm He. unfold binary_round_aux.
  destruct (shr_fexp_pos mx ex lx Hm He) as [M1 E1].
  destruct (shr_fexp prec emax mx ex lx) as [mrs' e']. cbn [fst snd] in M1, E1.
  pose proof (round_nearest_even_ge (shr_m mrs') (loc_of_shr_record mrs')) as R.
  assert (M1' : (0 < round_nearest_even (shr_m mrs') (loc_of_shr_record mrs'))%Z)
    by lia.
  destruct (shr_fexp_pos _ e' loc_Exact M1' E1) as [M2 E2].
  destruct (shr_fexp prec emax _ e' loc_Exact) as [mrs'' e''].
  cbn [fst snd] in M2, E2.
  destruct (shr_m mrs'') as [|m|m]; try lia.
  destruct (e'' <=? emax - prec)%Z; reflexivity.
Qed.

Lemma binary_round_nonzero (sx : bool) (mx : positive) (ex : Z) :
  (-1074 <= ex)%Z ->
  match binary_round prec emax sx mx ex with
  | S754_finite s _ _ | S754_infinity s => s = sx
  | _ => False
  end.
Proof.
  intros He. unfold binary_round, shl_align.
  set (e' := fexp prec emax (Z.pos (digits2_pos mx) + ex)).
  assert (E : (-1074 <= e')%Z)
    by (unfold e'; cbv [fexp SpecFloat.emin prec emax]; lia).
  destruct (e' - ex)%Z; apply binary_round_aux_nonzero; lia.
Qed.

Lemma iter_xO (d m : positive) :
  Z.pos (Pos.iter xO m d) = (Z.pos m * 2 ^ Z.pos d)%Z.
Proof.
  induction d as [|d IH] using Pos.peano_ind.
  - cbn [Pos.iter]. rewrite Pos2Z.inj_xO. change (2 ^ 1)%Z with 2%Z. lia.
  - rewrite Pos.iter_succ, Pos2Z.inj_xO, IH, Pos2Z.inj_succ, Z.pow_succ_r
      by lia. lia.
Qed.

(** The mantissa after alignment to a smaller exponent. *)
Lemma shl_align_fst (m : positive) (e ez : Z) :
  (ez <= e)%Z ->
  Z.pos (fst (shl_align m e ez)) = (Z.pos m * 2 ^ (e - ez))%Z.
Proof.
  intros H. unfold shl_align.
  destruct (ez - e)%Z as [|d|d] eqn:D; cbn [fst]; try lia.
  - replace (e - ez)%Z with 0%Z by lia. change (2 ^ 0)%Z with 1%Z. lia.
  - rewrite iter_xO. replace (e - ez)%Z with (Z.pos d) by lia. reflexivity.
Qed.

(** The exponent and the mantissa of a valid finite float. *)
Lemma valid_bounds (s : bool) (m : positive) (e : Z) :
  valid_binary (S754_finite s m e) = true ->
  (-1074 <= e)%Z /\ (Z.pos m < 9007199254740992)%Z.
Proof.
  intros V.
  cbv [SpecFloat.valid_binary bounded canonical_mantissa fexp SpecFloat.emin
       prec emax] in V.
  apply andb_true_iff in V. destruct V as [V _].
  apply Z.eqb_eq in V. split; [lia |].
  pose proof (digits2_pos_size m) as S.
  pose proof (Pos.size_gt m) as G.
  apply Pos2Z.pos_lt_pos in G. rewrite Pos2Z.inj_pow in G.
  rewrite <- S in G.
  assert (L : (Z.pos (digits2_pos m) <= 53)%Z) by lia.
  pose proof (Z.pow_le_mono_r 2 _ 53 ltac:(lia) L) as P.
  change (2 ^ 53)%Z with 9007199254740992%Z in P. lia.
Qed.

Lemma positive_spec (x : float) :
  (0 <? x) = true <-> SFpositive (Prim2SF x).
Proof.
  rewrite ltb_spec. change (Prim2SF 0) with (S754_zero false).
  destruct (Prim2SF x) as [s|s| |s m e]; try destruct s; cbn;
    split; intros H; try discriminate; try reflexivity; try exact I;
    try destruct H.
Qed.

Lemma binary_normalize_positive (m e : Z) :
  (0 < m)%Z -> (-1074 <= e)%Z ->
  SFpositive (binary_normalize prec emax m e false).
Proof.
  intros Hm He. destruct m as [|p|p]; try lia. cbn [binary_normalize].
  pose proof (binary_round_nonzero false p e He) as R.
  destruct (binary_round prec emax false p e) as [s|s| |s m' e'];
    try contradiction; subst s; exact I.
Qed.

(** Of two valid finite floats of one sign, the one larger in absolute
    value has the larger mantissa once both are aligned. *)
Lemma aligned_lt (s1 s2 : bool) (m1 m2 : positive) (e1 e2 ez : Z) :
  valid_binary (S754_finite s1 m1 e1) = true ->
  valid_binary (S754_finite s2 m2 e2) = true ->
  ez = Z.min e1 e2 ->
  (e2 < e1 \/ (e2 = e1 /\ Z.pos m2 < Z.pos m1))%Z ->
  (Z.pos (fst (shl_align m2 e2 ez)) < Z.pos (fst (shl_align m1 e1 ez)))%Z.
Proof.
  intros V1 V2 -> H.
  rewrite !shl_align_fst by lia.
  destruct (valid_bounds _ _ _ V1) as [L1 U1].
  destruct (valid_bounds _ _ _ V2) as [L2 U2].
  destruct H as [H|[H1 H2]].
  - pose proof (valid_normal _ _ _ V1 ltac:(lia)) as N1.
    rewrite Z.min_r by lia.
    replace (e2 - e2)%Z with 0%Z by lia. change (2 ^ 0)%Z with 1%Z.
    pose proof (Z.pow_le_mono_r 2 1 (e1 - e2) ltac:(lia) ltac:(lia)) as P.
    change (2 ^ 1)%Z with 2%Z in P.
    set (q := (2 ^ (e1 - e2))%Z) in *.
    assert (Z.pos m1 * 2 <= Z.pos m1 * q)%Z by (apply Z.mul_le_mono_nonneg_l; lia).
    lia.
  - subst e2. rewrite Z.min_id.
    replace (e1 - e1)%Z with 0%Z by lia. change (2 ^ 0)%Z with 1%Z. lia.
Qed.

(** In binary64 the difference of two floats is positive whenever the
    first is larger: with subnormal numbers no difference rounds to
    zero. *)
Lemma sub_positive (a b : float) :
  (b <? a) = true -> (0 <? a - b) = true.
Proof.
  intros L. apply positive_spec. rewrite sub_spec. unfold SF64sub.
  pose proof (Prim2SF_valid a) as Va. pose proof (Prim2SF_valid b) as Vb.
  rewrite ltb_spec in L. apply SFltb_key in L.
  destruct (Prim2SF a) as [sa|sa| |sa ma ea];
    destruct (Prim2SF b) as [sb|sb| |sb mb eb];
    try destruct sa; try destruct sb;
    cbn [SFkey key_lt] in L; cbn [SFsub SFpositive negb cond_Zopp];
    try exact I; try lia; try (destruct L; fail).
  - (* both negative *)
    destruct (valid_bounds _ _ _ Va) as [La _].
    destruct (valid_bounds _ _ _ Vb) as [Lb _].
    apply binary_normalize_positive; [| lia].
    pose proof (aligned_lt true true mb ma eb ea (Z.min ea eb) Vb Va
                  (Z.min_comm ea eb) ltac:(lia)).
    lia.
  - (* positive minus negative *)
    destruct (valid_bounds _ _ _ Va) as [La _].
    destruct (valid_bounds _ _ _ Vb) as [Lb _].
    apply binary_normalize_positive; lia.
  - (* both positive *)
    destruct (valid_bounds _ _ _ Va) as [La _].
    destruct (valid_bounds _ _ _ Vb) as [Lb _].
    apply binary_normalize_positive; [| lia].
    pose proof (aligned_lt false false ma mb ea eb (Z.min ea eb) Va Vb
                  eq_refl ltac:(lia)).
    lia.
Qed.

Lemma ltb_leb_trans (a b c : float) :
  (a <? b) = true -> (b <=? c) = true -> (a <? c) = true.
Proof.
  rewrite !ltb_spec, !leb_spec, !SFltb_key, !SFleb_key.
  destruct (SFkey (Prim2SF a)) as [[[a1 a2] a3]|],
    (SFkey (Prim2SF b)) as [[[b1 b2] b3]|],
    (SFkey (Prim2SF c)) as [[[c1 c2] c3]|]; cbn [key_le key_lt]; try tauto.
  lia.
Qed.

Lemma leb_ltb_trans (a b c : float) :
  (a <=? b) = true -> (b <? c) = true -> (a <? c) = true.
Proof.
  rewrite !ltb_spec, !leb_spec, !SFltb_key, !SFleb_key.
  destruct (SFkey (Prim2SF a)) as [[[a1 a2] a3]|],
    (SFkey (Prim2SF b)) as [[[b1 b2] b3]|],
    (SFkey (Prim2SF c)) as [[[c1 c2] c3]|]; cbn [key_le key_lt]; try tauto.
  lia.
Qed.

Lemma positive_not_zero (x : float) : (0 <? x) = true -> is_zero x = false.
Proof.
  intros H. destruct (is_zero x) eqn:Z; [exfalso | reflexivity].
  apply is_zero_key in Z. revert H. rewrite ltb_spec, SFltb_key, Z.
  change (Prim2SF 0) with (S754_zero false). cbn [SFkey key_lt]. lia.
Qed.

Section BodyFatFacts.

Variable log10_impl : float -> float.


(** X17.  With the Deurenberg formula, a positive finite weight, a
    height that is a number and an age that is not negative, the body
    fat percentage lies in [[5, 50]]: the formula cannot yield NaN. *)
Theorem deurenberg_in_range (data : UserData) :
  bodyFatMethod (calculateFitnessMetrics log10_impl data) = deurenberg ->
  (0 <? weight data) = true -> (weight data <? infinity) = true ->
  is_nan (height data) = false ->
  (0 <=? age data) = true ->
  inRange (bodyFatPercentage (calculateFitnessMetrics log10_impl data)) = true.
Proof.
  cbn [calculateFitnessMetrics bodyFatMethod bodyFatPercentage].
  intros M W1 W2 H A.
  pose proof (deurenberg_not_nan log10_impl data M W1 W2 H A) as N.
  unfold calc_bodyFatPercentage.
  destruct (clamp_bounds _ N) as [L U].
  apply toFixed1_inRange; assumption.
Qed.

(** X18.  Whenever the Navy method is used, the argument of its first
    logarithm is positive: the test [waist > neck] (with the hip added
    for a female) is made on the numbers that are subtracted, and in
    binary64 the difference of two different numbers is never zero.  So
    that logarithm is not NaN or minus infinity by the rules of
    [Math.log10]. *)
Theorem navy_logarithm_positive (data : UserData) :
  bodyFatMethod (calculateFitnessMetrics log10_impl data) = navy ->
  let x := if gender_is Male data
           then toNumber (waist data) - toNumber (neck data)
           else toNumber (waist data) + toNumber (hip data)
                - toNumber (neck data) in
  (0 <? x) = true
  /\ Math_log10 log10_impl x
     = if x =? infinity then infinity
       else if x =? 1 then 0 else log10_impl x.
Proof.
  cbn [calculateFitnessMetrics bodyFatMethod]. intros M. cbn zeta.
  assert (P : (0 <? (if gender_is Male data
                     then toNumber (waist data) - toNumber (neck data)
                     else toNumber (waist data) + toNumber (hip data)
                          - toNumber (neck data))) = true).
  { unfold calc_bodyFatMethod, calc_navyIsValid in M.
    destruct (calc_useNavy data); [| discriminate M].
    destruct (gender_is Male data).
    - destruct (toNumber (neck data) <? toNumber (waist data)) eqn:L;
        [| discriminate M].
      apply sub_positive, L.
    - destruct (toNumber (neck data)
                <? toNumber (waist data) + toNumber (hip data)) eqn:L;
        [| discriminate M].
      apply sub_positive, L. }
  split; [exact P |].
  unfold Math_log10.
  rewrite (proj2 (ltb_not_nan _ _ P)), (leb_not_gt _ _ (ltb_leb _ _ P)),
    (positive_not_zero _ P).
  reflexivity.
Qed.

End BodyFatFacts.

Section FormToCalculator.

Variable parseFloat : jsstring -> float.
Variable parseInt : jsstring -> float.
Variable log10_impl : float -> float.

(** The measurement that [submittedData] passes is truthy only if the
    number the warning looks at is. *)
Lemma submitted_truthy (text : jsstring) :
  truthyOpt (if nonEmpty text then Some (parseFloat text) else None) = true
  -> truthy (parseFloat text) = true.
Proof. destruct (nonEmpty text); [trivial | discriminate]. Qed.

(** X11.  Whenever the form shows the notice that the fallback method
    will be used, the calculator does use 'deurenberg' on the profile
    that the form submits, the notice being computed on the texts that
    are submitted (the debounced copy has caught up). *)
Theorem warning_means_fallback (form : FormState) (notice : jsstring) :
  navyValidationWarning parseFloat form = Some notice ->
  bodyFatMethod
    (calculateFitnessMetrics log10_impl
       (submittedData parseFloat parseInt form))
  = deurenberg.
Proof.
  unfold navyValidationWarning.
  cbn [calculateFitnessMetrics bodyFatMethod].
  unfold calc_bodyFatMethod, calc_navyIsValid.
  destruct (calc_useNavy (submittedData parseFloat parseInt form)) eqn:U;
    [| reflexivity].
  unfold calc_useNavy, gender_is in U.
  cbn [submittedData neck waist hip gender] in U |- *.
  unfold gender_is. cbn [submittedData neck waist hip gender].
  destruct (negb (truthy (parseFloat (form_waist form)))
            || negb (truthy (parseFloat (form_neck form)))); [discriminate |].
  destruct (form_gender form); cbn [andb orb isFemale] in *.
  - destruct (nonEmpty (form_neck form)), (nonEmpty (form_waist form));
      cbn [truthyOpt] in U; rewrite ?andb_false_r in U;
      try discriminate U. cbn [toNumber].
    destruct ((0 <? parseFloat (form_waist form))
              && (0 <? parseFloat (form_neck form))
              && (parseFloat (form_waist form)
                  <=? parseFloat (form_neck form))) eqn:T; [| discriminate].
    intros _. rewrite !andb_true_iff in T. destruct T as [_ T].
    rewrite (leb_not_gt _ _ T). reflexivity.
  - destruct (negb (truthy (parseFloat (form_hip form)))); [discriminate |].
    destruct (nonEmpty (form_neck form)), (nonEmpty (form_waist form)),
      (nonEmpty (form_hip form));
      cbn [truthyOpt andb] in U; rewrite ?andb_false_r in U;
      try discriminate U. cbn [toNumber].
    destruct ((0 <? parseFloat (form_waist form))
              && (0 <? parseFloat (form_neck form))
              && (0 <? parseFloat (form_hip form))
              && (parseFloat (form_waist form) + parseFloat (form_hip form)
                  <=? parseFloat (form_neck form))) eqn:T; [| discriminate].
    intros _. rewrite !andb_true_iff in T. destruct T as [_ T].
    cbn [andb toNumber]. rewrite (leb_not_gt _ _ T). reflexivity.
Qed.

(** X12.  On a form that can be submitted, with the neck and the waist
    given and not zero, and for a female the hip too, the calculator
    uses the Navy method exactly when the form shows no notice (computed
    on the texts that are submitted). *)
Theorem navy_or_warning (form : FormState) :
  canSubmit parseFloat form = true ->
  form_neck form <> [] -> form_waist form <> [] ->
  truthy (parseFloat (form_neck form)) = true ->
  truthy (parseFloat (form_waist form)) = true ->
  (form_gender form = Female ->
   form_hip form <> [] /\ truthy (parseFloat (form_hip form)) = true) ->
  (bodyFatMethod
     (calculateFitnessMetrics log10_impl
        (submittedData parseFloat parseInt form)) = navy
   <-> navyValidationWarning parseFloat form = None).
Proof.
  intros C Hn Hw Tn Tw Fh.
  apply canSubmit_spec in C. destruct C as (Ev & _).
  apply noErrors_spec in Ev. destruct Ev as (_ & _ & _ & Vn & Vw & Vh).
  apply (proj1 (validate_measure parseFloat (lit "neck") (form_neck form)
                  (or_introl eq_refl))) in Vn.
  apply (proj1 (validate_measure parseFloat (lit "waist") (form_waist form)
                  (or_intror (or_introl eq_refl)))) in Vw.
  apply (proj1 (validate_measure parseFloat (lit "hip") (form_hip form)
                  (or_intror (or_intror (or_introl eq_refl))))) in Vh.
  destruct Vn as [Vn|Vn]; [contradiction |].
  destruct Vw as [Vw|Vw]; [contradiction |].
  pose proof (truthy_nonneg_pos _ Vn Tn) as Pn.
  pose proof (truthy_nonneg_pos _ Vw Tw) as Pw.
  unfold navyValidationWarning. rewrite Tn, Tw, Pn, Pw.
  cbn [negb orb andb].
  cbn [calculateFitnessMetrics bodyFatMethod].
  unfold calc_bodyFatMethod, calc_navyIsValid, calc_useNavy, gender_is.
  cbn [submittedData neck waist hip gender].
  destruct (form_neck form) as [|c1 s1] eqn:En; [contradiction |].
  destruct (form_waist form) as [|c2 s2] eqn:Ew; [contradiction |].
  cbn [nonEmpty truthyOpt toNumber]. rewrite Tn, Tw. cbn [andb orb].
  destruct (form_gender form) eqn:G.
  - cbn [isFemale andb orb].
    destruct (parseFloat (c2 :: s2) <=? parseFloat (c1 :: s1)) eqn:L.
    + rewrite (leb_not_gt _ _ L). split; discriminate.
    + destruct (parseFloat (c1 :: s1) <? parseFloat (c2 :: s2)) eqn:R.
      * split; reflexivity.
      * apply leb_not_nan in Vn, Vw. destruct Vn as [_ Nn], Vw as [_ Nw].
        rewrite (not_gt_leb _ _ Nw Nn R) in L. discriminate.
  - destruct (Fh eq_refl) as [Hh Th].
    destruct Vh as [Vh|Vh]; [contradiction |].
    pose proof (truthy_nonneg_pos _ Vh Th) as Ph.
    destruct (form_hip form) as [|c3 s3] eqn:Eh; [contradiction |].
    cbn [nonEmpty isFemale andb orb truthyOpt toNumber].
    rewrite Th, Ph. cbn [negb andb orb].
    destruct (parseFloat (c2 :: s2) + parseFloat (c3 :: s3)
              <=? parseFloat (c1 :: s1)) eqn:L.
    + rewrite (leb_not_gt _ _ L). split; discriminate.
    + destruct (parseFloat (c1 :: s1)
                <? parseFloat (c2 :: s2) + parseFloat (c3 :: s3)) eqn:R.
      * split; reflexivity.
      * pose proof (add_nonneg _ _ Vw Vh) as S.
        apply leb_not_nan in Vn, S. destruct Vn as [_ Nn], S as [_ Ns].
        rewrite (not_gt_leb _ _ Ns Nn R) in L. discriminate.
Qed.

(** X19.  For a profile that the form submits with the fallback method,
    the body fat percentage lies in [[5, 50]] as soon as [parseInt]
    reads a height that is a number and an age that is not negative:
    the weight has been checked by the form. *)
Theorem submitted_deurenberg_in_range (form : FormState) :
  let data := submittedData parseFloat parseInt form in
  canSubmit parseFloat form = true ->
  is_nan (parseInt (form_height form)) = false ->
  (0 <=? parseInt (form_age form)) = true ->
  bodyFatMethod (calculateFitnessMetrics log10_impl data) = deurenberg ->
  inRange (bodyFatPercentage (calculateFitnessMetrics log10_impl data)) = true.
Proof.
  cbn zeta. intros C H A M.
  apply canSubmit_spec in C. destruct C as (Ev & _).
  apply noErrors_spec in Ev. destruct Ev as (_ & _ & Vw & _).
  apply validate_weight, andb_true_iff in Vw. destruct Vw as [W1 W2].
  cbn [calculateFitnessMetrics bodyFatMethod bodyFatPercentage] in *.
  pose proof (deurenberg_not_nan log10_impl
                (submittedData parseFloat parseInt form) M
                (ltb_leb_trans 0 30 _ eq_refl W1)
                (leb_ltb_trans _ 300 infinity W2 eq_refl) H A) as N.
  unfold calc_bodyFatPercentage.
  destruct (clamp_bounds _ N) as [L U].
  apply toFixed1_inRange; assumption.
Qed.

End FormToCalculator.

(* ================================================================== *)
(** * The routine request and the application state: proofs *)
(* ================================================================== *)

Lemma truthyProp_spec (key : jsstring) (v : json) :
  truthyProp key v = true
  <-> exists props x,
        v = JObj props /\ lookupProp key props = Some x
        /\ truthyJson x = true.
Proof.
  split.
  - destruct v as [| | | | |props]; try discriminate. cbn [truthyProp].
    destruct (lookupProp key props) as [x|] eqn:L; [| discriminate].
    intros T. exists props, x. auto.
  - intros (props & x & -> & L & T). cbn [truthyProp]. rewrite L. exact T.
Qed.

Section RoutineFacts.

Variable JSON_parse : jsstring -> option json.

Lemma routineBody_returns (reply : option (option jsstring)) (routine : json) :
  routineBody JSON_parse reply = inl routine
  <-> exists text,
        reply = Some (Some text)
        /\ JSON_parse (trim text) = Some routine
        /\ acceptedRoutine routine.
Proof.
  unfold routineBody, acceptedRoutine. split.
  - destruct reply as [[text|]|]; try discriminate.
    destruct (JSON_parse (trim text)) as [v|] eqn:P; [| discriminate].
    assert (A : (if truthyProp (lit "routineTitle") v
                    && truthyProp (lit "weeklySchedule") v
                    && truthyProp (lit "generalNotes") v
                 then inl v else inr BadFormat) = inl routine ->
                exists text0, Some (Some text) = Some (Some text0)
                  /\ JSON_parse (trim text0) = Some routine
                  /\ acceptedRoutine routine).
    { destruct (truthyProp (lit "routineTitle") v) eqn:T1; [| discriminate].
      destruct (truthyProp (lit "weeklySchedule") v) eqn:T2;
        [| discriminate].
      destruct (truthyProp (lit "generalNotes") v) eqn:T3; [| discriminate].
      cbn [andb]. intros E. injection E as <-.
      exists text. split; [reflexivity |]. split; [exact P |].
      apply truthyProp_spec in T1, T2, T3.
      destruct T1 as (props & title & -> & L1 & V1).
      destruct T2 as (props2 & schedule & E2 & L2 & V2).
      destruct T3 as (props3 & notes & E3 & L3 & V3).
      injection E2 as <-. injection E3 as <-.
      exists props, title, schedule, notes. repeat split; assumption. }
    destruct v; try exact A. discriminate.
  - intros (text & -> & P & props & title & schedule & notes & -> & L1 & V1
            & L2 & V2 & L3 & V3).
    rewrite P. cbn [truthyProp]. rewrite L1, L2, L3, V1, V2, V3.
    reflexivity.
Qed.

(** X13.  [generateWorkoutRoutine] returns a routine exactly when the
    service answered with a text whose trimmed JSON is an object with
    truthy [routineTitle], [weeklySchedule] and [generalNotes], and then
    it returns that object as parsed; in every other case (rejection, no
    text, a text that is not JSON, [null], any other value) it logs the
    cause once and throws the one Error "No se pudo generar la rutina
    ...", so the message of line 217 never reaches the caller. *)
Theorem generateWorkoutRoutine_outcome (reply : option (option jsstring)) :
  (forall routine,
     fst (generateWorkoutRoutine JSON_parse reply) = inl routine
     <-> exists text,
           reply = Some (Some text)
           /\ JSON_parse (trim text) = Some routine
           /\ acceptedRoutine routine)
  /\ (forall thrown,
        fst (generateWorkoutRoutine JSON_parse reply) = inr thrown ->
        thrown = ErrorInstance msgNoRoutine
        /\ exists cause,
             snd (generateWorkoutRoutine JSON_parse reply) = [cause]).
Proof.
  split.
  - intros routine. rewrite <- routineBody_returns.
    unfold generateWorkoutRoutine.
    destruct (routineBody JSON_parse reply) as [r|f]; cbn [fst];
      split; intros E; try discriminate; congruence.
  - intros thrown. unfold generateWorkoutRoutine.
    destruct (routineBody JSON_parse reply) as [r|f]; cbn [fst snd];
      [discriminate |].
    intros E. injection E as <-. split; [reflexivity |]. now exists f.
Qed.

End RoutineFacts.

Section AppFacts.

Variable log10_impl : float -> float.
Variable JSON_parse : jsstring -> option json.

(** X14.  While the routine is awaited the application shows the
    spinner.  When [handleSubmit] has finished it shows either the
    results, which are those of [calculateFitnessMetrics] on the
    submitted profile together with the routine received, or the error
    view with the message "No se pudo generar la rutina ...", the
    computed metrics being discarded; what was on the screen before
    plays no part. *)
Theorem handleSubmit_settles (data : UserData)
  (reply : option (option jsstring)) (st : AppState) :
  let done := handleSubmit log10_impl JSON_parse data reply st in
  renderContent (handleSubmit_pending log10_impl data st) = LoadingView
  /\ done = handleSubmit log10_impl JSON_parse data reply initialState
  /\ st_isLoading done = false
  /\ st_userData done = Some data
  /\ match fst (generateWorkoutRoutine JSON_parse reply) with
     | inl routine =>
         renderContent done
         = ResultsView (calculateFitnessMetrics log10_impl data) routine data
         /\ st_error done = None
     | inr _ =>
         renderContent done = ErrorView msgNoRoutine
         /\ st_results done = None /\ st_routine done = None
     end.
Proof.
  cbn zeta. split; [reflexivity |]. split; [reflexivity |].
  split; [reflexivity |].
  unfold handleSubmit.
  destruct (fst (generateWorkoutRoutine JSON_parse reply)) as [routine|t]
    eqn:G.
  - split; [reflexivity |]. split; [| reflexivity].
    unfold generateWorkoutRoutine in G.
    destruct (routineBody JSON_parse reply) as [r|f] eqn:B;
      [| discriminate].
    cbn [fst] in G. injection G as <-.
    apply routineBody_returns in B.
    destruct B as (text & _ & _ & props & title & schedule & notes & ->
                   & _).
    reflexivity.
  - unfold generateWorkoutRoutine in G.
    destruct (routineBody JSON_parse reply) as [r|f]; [discriminate |].
    cbn [fst] in G. injection G as <-. repeat split; reflexivity.
Qed.

End AppFacts.

(* ================================================================== *)
(** * The results display: proofs *)
(* ================================================================== *)

(** The strings of the two keys round-trip through the normalizer. *)
Lemma normalizeMethodKey_keyString (k : MethodKey) :
  normalizeMethodKey (Some (keyString k)) = (k, []).
Proof. destruct k; vm_compute; reflexivity. Qed.

Section DisplayFacts.

Variable log10_impl : float -> float.

(** X15.  For the results of [calculateFitnessMetrics] the display
    never makes the normalizer warn, and whenever [METHOD_SOURCES] has an
    entry for the method that was used, the title and the note are
    those of that entry. *)
Theorem bodyFatMethodInfo_matches
  (METHOD_SOURCES : option (list (jsstring * MethodInfo)))
  (data : UserData) :
  let r := calculateFitnessMetrics log10_impl data in
  snd (bodyFatMethodInfo METHOD_SOURCES r) = []
  /\ (forall entry,
        optionalLookup METHOD_SOURCES (keyString (bodyFatMethod r))
        = Some entry ->
        fst (bodyFatMethodInfo METHOD_SOURCES r) = entry).
Proof.
  cbn zeta. unfold bodyFatMethodInfo.
  rewrite normalizeMethodKey_keyString. cbn [fst snd].
  split; [reflexivity |]. intros entry ->. reflexivity.
Qed.

End DisplayFacts.

(** X16.  The calorie figure that the display selects by the goal is
    always there, and it is the target of that goal: the values of the
    enum [Goal] are the property names of [targetCalories]. *)
Theorem selectedGoalCalories_defined (results : FitnessResults)
  (userData : UserData) :
  selectedGoalCalories results userData
  = Some (match goal userData with
          | Maintenance => maintenance (targetCalories results)
          | Bulking => bulking (targetCalories results)
          | Cutting => cutting (targetCalories results)
          end).
Proof.
  unfold selectedGoalCalories. destruct (goal userData); reflexivity.
Qed.

(* ================================================================== *)
(** * The theorems at sample inputs *)
(* ================================================================== *)

Lemma normalizeMethodKey_padded_sample :
  fst (normalizeMethodKey (Some (lit "  " ++ lit "US Navy" ++ lit " ")))
  = fst (normalizeMethodKey (Some (lit "US Navy"))).
Proof.
  exact (normalizeMethodKey_ignores_padding (lit "  ") (lit "US Navy")
           (lit " ") eq_refl eq_refl).
Defined.


Lemma pal_monotone_sample :
  (calc_pal (profile_days 2) <=? calc_pal (profile_days 4)) = true.
Proof.
  exact (pal_monotone (profile_days 2) (profile_days 4) eq_refl).
Defined.

Lemma energy_ignores_measurements_sample :
  let r1 := calculateFitnessMetrics log10_series profile_navyMale in
  let r2 := calculateFitnessMetrics log10_series profile_neckZero in
  bmi r1 = bmi r2 /\ bmr r1 = bmr r2 /\ tdee r1 = tdee r2
  /\ targetCalories r1 = targetCalories r2.
Proof.
  exact (energy_ignores_measurements log10_series profile_navyMale
           profile_neckZero eq_refl eq_refl eq_refl eq_refl eq_refl).
Defined.

Lemma bmr_exact_sample :
  bmr (calculateFitnessMetrics log10_series profile_navyMale)
  = Z2float (exactBmr Male 750 175 30).
Proof.
  apply (bmr_exact log10_series profile_navyMale 750 175 30).
  unfold formValid. repeat split; try lia; vm_compute; reflexivity.
Defined.

Lemma tdee_exact_sample :
  tdee (calculateFitnessMetrics log10_series profile_navyMale)
  = Z2float (exactTdee (palPercent profile_navyMale) 1699).
Proof.
  apply (tdee_exact log10_series profile_navyMale 1699).
  - lia.
  - vm_compute. reflexivity.
Defined.

Lemma targetCalories_exact_sample :
  let t := targetCalories
             (calculateFitnessMetrics log10_series profile_tdee2500) in
  cutting t = Z2float (exactCutting 2500)
  /\ bulking t = Z2float (exactBulking 2500)
  /\ (cutting t <=? maintenance t) = true
  /\ (maintenance t <=? bulking t) = true.
Proof.
  apply (targetCalories_exact log10_series profile_tdee2500 2500).
  - lia.
  - vm_compute. reflexivity.
Defined.

Lemma energy_pipeline_exact_sample :
  let r := calculateFitnessMetrics log10_series profile_navyMale in
  let T := exactTdee (palPercent profile_navyMale)
             (exactBmr Male 750 175 30) in
  tdee r = Z2float T
  /\ maintenance (targetCalories r) = Z2float T
  /\ cutting (targetCalories r) = Z2float (exactCutting T)
  /\ bulking (targetCalories r) = Z2float (exactBulking T)
  /\ (cutting (targetCalories r) <=? maintenance (targetCalories r)) = true
  /\ (maintenance (targetCalories r) <=? bulking (targetCalories r)) = true.
Proof.
  apply (energy_pipeline_exact log10_series profile_navyMale 750 175 30).
  unfold formValid. repeat split; try lia; vm_compute; reflexivity.
Defined.

Lemma submitted_profile_sample :
  let data := submittedData parseFloat_js parseInt_js form_navyMale in
  (30 <=? weight data) && (weight data <=? 300) = true
  /\ (forall x, hip data = Some x ->
      (0 <=? x) = true /\ gender data = Female).
Proof.
  cbn zeta.
  pose proof (submitted_profile parseFloat_js parseInt_js form_navyMale
                (submittedData parseFloat_js parseInt_js form_navyMale)
                ltac:(vm_compute; reflexivity)) as H.
  destruct H as (_ & W & _ & _ & Hip & _). split; [exact W | exact Hip].
Defined.

Lemma warning_means_fallback_sample :
  bodyFatMethod
    (calculateFitnessMetrics log10_series
       (submittedData parseFloat_js parseInt_js form_thickNeck))
  = deurenberg.
Proof.
  apply (warning_means_fallback parseFloat_js parseInt_js log10_series
           form_thickNeck warnWaistNeck).
  vm_compute. reflexivity.
Defined.

Lemma navy_or_warning_sample :
  bodyFatMethod
    (calculateFitnessMetrics log10_series
       (submittedData parseFloat_js parseInt_js form_navyFemale)) = navy
  <-> navyValidationWarning parseFloat_js form_navyFemale = None.
Proof.
  apply (navy_or_warning parseFloat_js parseInt_js log10_series
           form_navyFemale).
  - vm_compute. reflexivity.
  - discriminate.
  - discriminate.
  - vm_compute. reflexivity.
  - vm_compute. reflexivity.
  - intros _. split; [discriminate | vm_compute; reflexivity].
Defined.

Lemma deurenberg_in_range_sample :
  inRange (bodyFatPercentage
             (calculateFitnessMetrics log10_series profile_neckZero)) = true.
Proof.
  apply (deurenberg_in_range log10_series profile_neckZero);
    vm_compute; reflexivity.
Defined.

Lemma navy_logarithm_positive_sample :
  let x := 85 - 38 in
  (0 <? x) = true
  /\ Math_log10 log10_series x
     = if x =? infinity then infinity
       else if x =? 1 then 0 else log10_series x.
Proof.
  apply (navy_logarithm_positive log10_series profile_navyMale).
  vm_compute. reflexivity.
Defined.

Lemma submitted_deurenberg_in_range_sample :
  inRange
    (bodyFatPercentage
       (calculateFitnessMetrics log10_series
          (submittedData parseFloat_js parseInt_js form_noMeasures))) = true.
Proof.
  apply (submitted_deurenberg_in_range parseFloat_js parseInt_js
           log10_series form_noMeasures); vm_compute; reflexivity.
Defined.



(** The form checks the age and the height with [parseFloat] and
    submits them with [parseInt]: the height ".12e3" reads as 120 in the
    check and as NaN in the profile, and the body fat percentage of that
    profile is NaN. *)
Example form_height_read_twice :
  canSubmit parseFloat_js form_oddHeight = true
  /\ is_nan (height (submittedData parseFloat_js parseInt_js form_oddHeight))
     = true
  /\ is_nan (bodyFatPercentage
               (calculateFitnessMetrics log10_series
                  (submittedData parseFloat_js parseInt_js form_oddHeight)))
     = true.
Proof. repeat split; vm_compute; reflexivity. Qed.
